(** * hummingbird.ml.convert: the conversion entry point

    A shallow embedding of [src/hummingbird/ml/convert.py].  The Python
    function [convert] threads one mutable dictionary ([extra_config])
    through the whole call and may raise at many points, so the embedding
    is written in a state-and-exception monad over a store of dictionary
    objects.  Everything that lives outside [convert.py] (numpy, pandas,
    pyspark, the parsers, the topology compiler, the registries of
    [hummingbird.ml.supported]) is gathered in one record, [Env]. *)

From Stdlib Require Import Ascii String.
From stdpp Require Import gmap strings list fin_maps.

Set Warnings "-register-all".

Open Scope string_scope.

(** ** Exceptions *)

(** The exception classes [convert.py] can raise, with the message of the
    [raise]/[assert] statement where the source gives one. *)
Inductive exn :=
  | AssertionError (msg : string)
  | MissingBackend (msg : string)
  | RuntimeError (msg : string)
  | ValueError (msg : string)
  | TypeError (msg : string)
  | AttributeError (msg : string)
  | IndexError (msg : string)
  | KeyError (msg : string)
  | ExternalError (msg : string).

Inductive res (A : Type) :=
  | Ok (a : A)
  | Raise (e : exn).
Arguments Ok {A} a.
Arguments Raise {A} e.

(** The messages of the source, one constant per [raise] or [assert]. *)
Definition msg_model_none := "assert model is not None".
Definition msg_torch_missing := "To use Hummingbird you need to install torch.".
Definition msg_lightgbm_missing :=
  "To convert LightGBM models you need to install LightGBM (or `pip install hummingbird-ml[extra]`).".
Definition msg_xgboost_missing :=
  "To convert XGboost models you need to instal XGBoost (or `pip install hummingbird-ml[extra]`).".
Definition msg_backend_none := "Backend: None".
Definition msg_jit_needs_input :=
  "Backend {} requires test inputs. Please pass some test input to the convert.".
Definition msg_onnx_backend_needs_input :=
  "Cannot generate test input data for ONNX. Either pass some input data or the initial_types".
Definition msg_onnx_model_needs_input :=
  "Cannot extract number of input features from the ONNX. Either pass some input data or the initial_types".
Definition msg_xgb_bad_input :=
  "XGBoost converter is not able to infer the number of input features. Please pass a test_input to convert or fill an issue at https://github.com/microsoft/hummingbird/.".
Definition msg_xgb_no_input :=
  "XGBoost converter is not able to infer the number of input features. Please pass some test_input to the converter.".
Definition msg_onnx_no_shape :=
  "Cannot generate test input data. Initial_types do not contain shape information.".
Definition msg_onnx_rank := "Hummingbird currently support only inputs with len(shape) == 2.".
Definition msg_onnx_type :=
  "Type {} not supported. Please fill an issue on https://github.com/microsoft/hummingbird/.".
Definition msg_only_ndarrays := "When passing multiple inputs only ndarrays are supported.".
Definition msg_rank_two := "assert all([len(input.shape) == 2 ...])".
Definition msg_spark_dtype := "Unrecognized data type: {}".

(** ** Configuration keys *)

(** Modelled from the spec: the constants of [operator_converters.constants],
    which is not among the sources.  They are the eight recognized
    configuration keys ([TEST_INPUT] is the sample input,
    [ONNX_INITIAL_TYPES] the declared input shapes, [N_FEATURES] the
    feature count, [N_INPUTS] the input count, [CONTAINER] the container
    switch, [N_THREADS] the thread hint, [ONNX_INITIALIZERS] the graph
    initializers).  Their string values do not matter here, only that they
    are pairwise distinct, which the constructors give.  [OtherKey] stands
    for any further key a caller may pass. *)
Inductive key :=
  | TEST_INPUT
  | ONNX_INITIAL_TYPES
  | ONNX_INITIALIZERS
  | N_FEATURES
  | N_INPUTS
  | INPUT_NAMES
  | CONTAINER
  | N_THREADS
  | OtherKey (s : string).

#[global] Instance key_eq_dec : EqDecision key.
Proof. solve_decision. Defined.

Definition key_code (k : key) : nat + string :=
  match k with
  | TEST_INPUT => inl 0
  | ONNX_INITIAL_TYPES => inl 1
  | ONNX_INITIALIZERS => inl 2
  | N_FEATURES => inl 3
  | N_INPUTS => inl 4
  | INPUT_NAMES => inl 5
  | CONTAINER => inl 6
  | N_THREADS => inl 7
  | OtherKey s => inr s
  end.

Definition key_decode (c : nat + string) : key :=
  match c with
  | inl 0 => TEST_INPUT
  | inl 1 => ONNX_INITIAL_TYPES
  | inl 2 => ONNX_INITIALIZERS
  | inl 3 => N_FEATURES
  | inl 4 => N_INPUTS
  | inl 5 => INPUT_NAMES
  | inl 6 => CONTAINER
  | inl _ => N_THREADS
  | inr s => OtherKey s
  end.

Lemma key_decode_code (k : key) : key_decode (key_code k) = k.
Proof. by destruct k. Qed.

#[global] Instance key_countable : Countable key :=
  inj_countable' key_code key_decode key_decode_code.

(** ** Python values *)

(** [type(x)] of an object: module and class name. *)
Record pytype := PyType { ty_module : string; ty_name : string }.

#[global] Instance pytype_eq_dec : EqDecision pytype.
Proof. solve_decision. Defined.

(** numpy element types; [object_] stands for every dtype that is not one
    of the four numeric ones the source names. *)
Inductive np_dtype := float32 | float64 | int32 | int64 | object_.

#[global] Instance np_dtype_eq_dec : EqDecision np_dtype.
Proof. solve_decision. Defined.

(** The tensor types of [onnxconverter_common.data_types]. *)
Inductive tensor_class :=
  | FloatTensorType
  | DoubleTensorType
  | Int32TensorType
  | Int64TensorType
  | OtherTensorType (name : string).

(** The classes [type(field.dataType)] is compared with on the Spark path. *)
Inductive spark_dtype :=
  | DenseVector
  | VectorUDT
  | SparseVector
  | ArrayType
  | IntegerType
  | FloatType
  | DoubleType
  | LongType
  | OtherSparkType (name : string).

#[global] Instance spark_dtype_eq_dec : EqDecision spark_dtype.
Proof. solve_decision. Defined.

Section Values.
(** The element type of arrays is left abstract. *)
Context {scalar : Type}.

(** A [numpy.ndarray]: element type, shape and the elements in row-major
    order. *)
Record ndarray := NdArray {
  dtype : np_dtype;
  shape : list nat;
  data : list scalar
}.

(** A declared input type, [initial_types[i][1]]: its class and its
    [.shape] ([None], or a list whose entries may be [None]). *)
Record tensor_type := TensorType {
  tt_class : tensor_class;
  tt_shape : option (list (option nat))
}.

(** An entry of [model.graph.initializer]. *)
Record tensor_proto := TensorProto {
  init_name : string;
  init_dims : list nat;
  init_raw : list scalar
}.

(** A pandas column and a pandas [DataFrame]: [len(df)] is the length of
    the index, [df.columns] the labels in declaration order (labels may
    repeat). *)
Record pd_column := PdColumn {
  col_name : string;
  col_dtype : np_dtype;
  col_data : list scalar
}.

Record pandas_frame := PandasFrame {
  pd_rows : nat;
  pd_cols : list pd_column
}.

(** The value of one cell of a Spark row. *)
Inductive spark_value :=
  | SDense (values : list scalar)
  | SSparse (size : nat) (indices : list nat) (values : list scalar)
  | SList (values : list scalar)
  | SScalar (x : scalar)
  | SNull.

Record spark_field := SparkField {
  field_name : string;
  field_dataType : spark_dtype
}.

(** A Spark [DataFrame]: [df.schema.fields] and the rows, each row a
    list of cells in field order. *)
Record spark_frame := SparkFrame {
  sp_fields : list spark_field;
  sp_rows : list (list spark_value)
}.

(** The Python values that can sit in [extra_config] or be passed as
    [test_input]. *)
Inductive pyvalue :=
  | VNone
  | VBool (b : bool)
  | VInt (z : Z)
  | VStr (s : string)
  | VList (l : list pyvalue)
  | VTuple (l : list pyvalue)
  | VArray (a : ndarray)
  | VPandas (df : pandas_frame)
  | VSpark (df : spark_frame)
  | VInitialTypes (its : list (string * tensor_type))
  | VInitializers (inits : gmap string tensor_proto)
  | VObject (ty : pytype).

(** The model handed to [convert]: its class, the value of the
    [_features_count] attribute when [dir(model)] lists it, whether it is
    an instance of pyspark's [Model], [PipelineModel] or [Transformer],
    and [model.graph.initializer] for graph objects. *)
Record pymodel := PyModel {
  model_type : pytype;
  features_count_attr : option pyvalue;
  spark_instance : bool;
  graph_initializer : option (list tensor_proto)
}.
End Values.

Arguments ndarray : clear implicits.
Arguments tensor_proto : clear implicits.
Arguments pd_column : clear implicits.
Arguments pandas_frame : clear implicits.
Arguments spark_value : clear implicits.
Arguments spark_frame : clear implicits.
Arguments pyvalue : clear implicits.
Arguments pymodel : clear implicits.

(** ** The store of dictionaries and the monad *)

(** [extra_config] is a Python dict, held by reference.  The store maps
    object identities to the contents of the dict objects alive. *)
Definition loc := positive.

Abbreviation dict scalar := (gmap key (pyvalue scalar)).
Abbreviation heap scalar := (gmap loc (gmap key (pyvalue scalar))).

Section Monad.
Context {scalar : Type}.

(** A computation reads and updates the store, and returns or raises.
    The store survives a raise: what was written before stays written. *)
Definition M (A : Type) : Type := heap scalar → res A * heap scalar.

Definition ret {A} (a : A) : M A := λ h, (Ok a, h).
Definition raise {A} (e : exn) : M A := λ h, (Raise e, h).
Definition bind {A B} (m : M A) (f : A → M B) : M B :=
  λ h, match m h with
       | (Ok a, h') => f a h'
       | (Raise e, h') => (Raise e, h')
       end.

(** [assert c, msg] *)
Definition py_assert (c : bool) (msg : string) : M unit :=
  if c then ret tt else raise (AssertionError msg).

(** Lifting a pure computation that may raise. *)
Definition lift {A} (r : res A) : M A := λ h, (r, h).

(** The contents of the dict at [l]. *)
Definition deref (l : loc) (h : heap scalar) : dict scalar := h !!! l.

(** [k in d] *)
Definition contains (l : loc) (k : key) : M bool :=
  λ h, (Ok (bool_decide (is_Some (deref l h !! k))), h).

(** [d[k]] *)
Definition getitem (l : loc) (k : key) : M (pyvalue scalar) :=
  λ h, match deref l h !! k with
       | Some v => (Ok v, h)
       | None => (Raise (KeyError "extra_config"), h)
       end.

(** [d[k] = v]: the dict object at [l] is updated in place. *)
Definition setitem (l : loc) (k : key) (v : pyvalue scalar) : M unit :=
  λ h, (Ok tt, <[l := <[k := v]> (deref l h)]> h).
End Monad.

Arguments M : clear implicits.

Declare Scope py_scope.
Delimit Scope py_scope with py.
Notation "x ← m ; k" := (bind m (λ x, k)) (only parsing) : py_scope.
Notation "m ;; k" := (bind m (λ _, k)) (only parsing) : py_scope.
Open Scope py_scope.

(** ** The environment of [convert.py] *)

(** What [convert.py] imports and calls but does not define.  The modules
    it imports unconditionally ([numpy], [psutil], [onnx],
    [onnxconverter_common]) are taken to be importable; the optional ones
    are behind the [*_installed] probes of [_utils].

    - [backends] is the registry of [hummingbird.ml.supported]: indexing it
      with an unknown name yields [None] (this is what
      [_supported_backend_check] tests), so a lookup in a finite map.
    - [default_extra_config] is the identity of the dict object bound once
      to the parameter [extra_config={}] of [convert].
    - [deepcopy_error v] is the exception [copy.deepcopy] raises on the
      value [v], if any: a Spark frame, which holds its session, cannot be
      copied.
    - [np_result_type] is the element type numpy gives an array built
      from columns of the listed element types.
    - [np_random_rand r c] is the draw [np.random.rand(r, c)] makes.
    - the parsers and the topology compiler receive a reference to the
      configuration dict and may update that object; they may also raise. *)
Record Env {scalar topology hb_model : Type} := {
  torch_installed : bool;
  lightgbm_installed : bool;
  xgboost_installed : bool;
  pandas_installed : bool;
  sparkml_installed : bool;
  backends : gmap string string;
  xgb_operator_list : list pytype;
  lgbm_operator_list : list pytype;
  cpu_count : pyvalue scalar;
  default_extra_config : loc;
  deepcopy_error : pyvalue scalar → option exn;
  np_result_type : list np_dtype → np_dtype;
  np_array : list (pyvalue scalar) → res (ndarray scalar);
  np_random_rand : nat → nat → list scalar;
  np_zero : np_dtype → scalar;
  np_cast : np_dtype → scalar → scalar;
  parse_sklearn_api_model :
    pymodel scalar → dict scalar → res topology * dict scalar;
  parse_onnx_api_model : pymodel scalar → res topology;
  parse_sparkml_api_model :
    pymodel scalar → dict scalar → res topology * dict scalar;
  topology_converter :
    topology → string → string → dict scalar → res hb_model * dict scalar
}.
Arguments Env : clear implicits.

(** [torch.jit.__name__] and [onnx.__name__].  The registry holds these
    very strings, so the source's [backend is torch.jit.__name__] is
    equality of names. *)
Definition torch_jit_name : string := "torch.jit".
Definition onnx_name : string := "onnx".

(** [str.lower] on the ASCII letters. *)
Definition lower_ascii (c : ascii) : ascii :=
  let n := nat_of_ascii c in
  if (65 <=? n)%nat && (n <=? 90)%nat then ascii_of_nat (n + 32) else c.

Fixpoint lower (s : string) : string :=
  match s with
  | EmptyString => EmptyString
  | String c s' => String (lower_ascii c) (lower s')
  end.

(** Two characters that are equal, or the lower-case and the upper-case
    form of one ASCII letter. *)
Definition same_letter (c1 c2 : ascii) : bool :=
  let n1 := nat_of_ascii c1 in
  let n2 := nat_of_ascii c2 in
  (n1 =? n2)%nat
  || ((97 <=? n1)%nat && (n1 <=? 122)%nat && (n2 + 32 =? n1)%nat)
  || ((97 <=? n2)%nat && (n2 <=? 122)%nat && (n1 + 32 =? n2)%nat).

(** Two names that differ at most in the case of their letters. *)
Fixpoint same_up_to_case (s1 s2 : string) : bool :=
  match s1, s2 with
  | EmptyString, EmptyString => true
  | String c1 s1', String c2 s2' => same_letter c1 c2 && same_up_to_case s1' s2'
  | _, _ => false
  end.

Section Convert.
Context {scalar topology hb_model : Type}.
Context (env : Env scalar topology hb_model).

#[local] Abbreviation pyvalue := (pyvalue scalar).
#[local] Abbreviation pymodel := (pymodel scalar).
#[local] Abbreviation ndarray := (ndarray scalar).
#[local] Abbreviation M := (M scalar).

(** Calling an external collaborator with a reference to the dict at
    [l]: it sees the contents and leaves the object updated. *)
Definition call_with_config {A}
    (f : dict scalar → res A * dict scalar) (l : loc) : M A :=
  λ h, let '(r, d) := f (deref l h) in (r, <[l := d]> h).

(** What [deepcopy(extra_config)] raises on a dict with the entries [c],
    if anything.  The entries of a configuration are plain data (numbers,
    names, declared types, tensors, arrays), which copy to themselves; the
    one entry that can be an object [copy.deepcopy] refuses is the sample
    input. *)
Definition deepcopy_refusal (c : dict scalar) : option exn :=
  c !! TEST_INPUT ≫= deepcopy_error env.

(** [deepcopy(d)]: a new dict object with the same entries, unless an
    entry cannot be copied; then nothing is created. *)
Definition deepcopy (l : loc) : M loc :=
  λ h, match deepcopy_refusal (deref l h) with
       | Some e => (Raise e, h)
       | None => let l' := fresh (dom h) in (Ok l', <[l' := deref l h]> h)
       end.

(** *** Helpers of [_utils] and of Python *)

(** Modelled from the spec: [_utils.is_pandas_dataframe], which is not
    among the sources; the test that a value is a tabular frame, which can
    only hold where pandas is installed. *)
Definition is_pandas_dataframe (v : pyvalue) : bool :=
  pandas_installed env && match v with VPandas _ => true | _ => false end.

(** Modelled from the spec: [_utils.is_spark_dataframe], which is not
    among the sources; the test that a value is a distributed tabular
    frame, which can only hold where pyspark is installed. *)
Definition is_spark_dataframe (v : pyvalue) : bool :=
  sparkml_installed env && match v with VSpark _ => true | _ => false end.

Definition is_none (v : pyvalue) : bool :=
  match v with VNone => true | _ => false end.

(** [len(v)] *)
Definition py_len (v : pyvalue) : res nat :=
  match v with
  | VList l | VTuple l => Ok (length l)
  | VStr s => Ok (String.length s)
  | VArray a =>
      match shape a with
      | n :: _ => Ok n
      | [] => Raise (TypeError "len() of unsized object")
      end
  | VPandas df => Ok (pd_rows df)
  | VInitialTypes its => Ok (length its)
  | VInitializers inits => Ok (size inits)
  | _ => Raise (TypeError "object has no len()")
  end.

(** [type(v) == np.ndarray] *)
Definition is_ndarray (v : pyvalue) : bool :=
  match v with VArray _ => true | _ => false end.

(** [v.shape] *)
Definition py_shape (v : pyvalue) : res (list nat) :=
  match v with
  | VArray a => Ok (shape a)
  | VPandas df => Ok [pd_rows df; length (pd_cols df)]
  | _ => Raise (AttributeError "shape")
  end.

(** [len(v.shape)] *)
Definition py_rank (v : pyvalue) : res nat :=
  match py_shape v with
  | Ok sh => Ok (length sh)
  | Raise e => Raise e
  end.

(** [v.shape[1]] *)
Definition py_shape_1 (v : pyvalue) : res nat :=
  match py_shape v with
  | Ok sh =>
      match sh !! 1%nat with
      | Some n => Ok n
      | None => Raise (IndexError "tuple index out of range")
      end
  | Raise e => Raise e
  end.

(** A list comprehension whose element expression may raise: the first
    exception ends the comprehension. *)
Fixpoint comprehension {A B} (f : A → res B) (l : list A) : res (list B) :=
  match l with
  | [] => Ok []
  | x :: l' =>
      match f x with
      | Raise e => Raise e
      | Ok y =>
          match comprehension f l' with
          | Raise e => Raise e
          | Ok ys => Ok (y :: ys)
          end
      end
  end.

(** [sum] of a list of Python ints. *)
Definition py_sum (l : list nat) : Z := foldr (λ n acc, Z.of_nat n + acc)%Z 0%Z l.

(** *** numpy and pandas operations used on the sample input *)

(** [a.size] *)
Definition np_size (a : ndarray) : nat := foldr Nat.mul 1%nat (shape a).

(** [a.reshape(-1, 1)] *)
Definition reshape_column (a : ndarray) : ndarray :=
  NdArray (dtype a) [np_size a; 1%nat] (data a).

(** [np.zeros((rows, cols), dt)] *)
Definition np_zeros (rows cols : nat) (dt : np_dtype) : ndarray :=
  NdArray dt [rows; cols] (replicate (rows * cols) (np_zero env dt)).

(** [np.array(a, dtype=dt)] on an array. *)
Definition np_astype (dt : np_dtype) (a : ndarray) : ndarray :=
  NdArray dt (shape a) (map (np_cast env dt) (data a)).

(** [df[name]]: the columns labelled [name]; one column is a [Series],
    several (a repeated label) a [DataFrame]. *)
Definition pd_getitem (df : pandas_frame scalar) (name : string)
    : list (pd_column scalar) :=
  filter (λ c, col_name c = name) (pd_cols df).

(** The elements of the selected columns in row-major order. *)
Definition row_major (rows : nat) (sel : list (pd_column scalar)) : list scalar :=
  concat (map (λ i, omap (λ c, col_data c !! i) sel) (seq 0 rows)).

(** The element type of the array for several columns. *)
Definition common_dtype (sel : list (pd_column scalar)) : np_dtype :=
  np_result_type env (map col_dtype sel).

(** [.to_numpy()] of the result of [df[name]]. *)
Definition pd_to_numpy (rows : nat) (sel : list (pd_column scalar)) : ndarray :=
  match sel with
  | [c] => NdArray (col_dtype c) [rows] (col_data c)
  | _ => NdArray (common_dtype sel) [rows; length sel] (row_major rows sel)
  end.

(** [tuple(splits) if len(splits) > 1 else splits[0]] *)
Definition pack_splits (splits : list ndarray) : res pyvalue :=
  if (1 <? length splits)%nat then Ok (VTuple (map VArray splits))
  else match splits with
       | a :: _ => Ok (VArray a)
       | [] => Raise (IndexError "list index out of range")
       end.

(** *** The Spark path, per field *)

(** [df.take(1)[0].asDict()]: the cells of the first row by field name
    (a repeated name keeps the last cell). *)
Definition first_row_dict (df : spark_frame scalar)
    : res (gmap string (spark_value scalar)) :=
  match sp_rows df with
  | [] => Raise (IndexError "list index out of range")
  | row :: _ =>
      Ok (foldl (λ m '(name, cell), <[name := cell]> m) ∅
            (zip (map field_name (sp_fields df)) row))
  end.

(** [data_col.array.shape[0]] *)
Definition dense_width (cell : spark_value scalar) : res nat :=
  match cell with
  | SDense values => Ok (length values)
  | _ => Raise (AttributeError "array")
  end.

(** [data_col.size] *)
Definition sparse_width (cell : spark_value scalar) : res nat :=
  match cell with
  | SSparse size _ _ => Ok size
  | _ => Raise (AttributeError "size")
  end.

(** [len(data_col)] *)
Definition cell_len (cell : spark_value scalar) : res nat :=
  match cell with
  | SList values | SDense values => Ok (length values)
  | SSparse size _ _ => Ok size
  | _ => Raise (TypeError "object has no len()")
  end.

(** The body of the loop over [df.schema.fields] (lines 311-334): the
    element type and the width of the field, as a pair. *)
Definition spark_field_layout (row_dict : gmap string (spark_value scalar))
    (field : spark_field) : res (np_dtype * nat) :=
  match row_dict !! field_name field with
  | None => Raise (KeyError (field_name field))
  | Some data_col =>
      match field_dataType field with
      | DenseVector | VectorUDT =>
          match dense_width data_col with
          | Ok w => Ok (float64, w)
          | Raise e => Raise e
          end
      | SparseVector =>
          match sparse_width data_col with
          | Ok w => Ok (float64, w)
          | Raise e => Raise e
          end
      | ArrayType =>
          match cell_len data_col with
          | Ok w => Ok (float64, w)
          | Raise e => Raise e
          end
      | IntegerType => Ok (int32, 1%nat)
      | FloatType => Ok (float32, 1%nat)
      | DoubleType => Ok (float64, 1%nat)
      | LongType => Ok (int64, 1%nat)
      | OtherSparkType _ => Raise (ValueError msg_spark_dtype)
      end
  end.

(** The array of zeros for a field of the given element type and width. *)
Definition zero_array (size : nat) (layout : np_dtype * nat) : ndarray :=
  np_zeros size layout.2 layout.1.

Definition spark_split (size : nat) (row_dict : gmap string (spark_value scalar))
    (field : spark_field) : res ndarray :=
  match spark_field_layout row_dict field with
  | Ok (np_dtype, shape) => Ok (np_zeros size shape np_dtype)
  | Raise e => Raise e
  end.

(** *** [convert.py], function by function *)

(** [_is_onnx_model] (lines 37-41) *)
Definition _is_onnx_model (model : pymodel) : bool :=
  bool_decide (ty_name (model_type model) = "ModelProto").

(** [_is_sparkml_model] (lines 44-54) *)
Definition _is_sparkml_model (model : pymodel) : bool :=
  if sparkml_installed env then spark_instance model else false.

(** [_supported_backend_check] (lines 57-62); [backend] is what the
    registry returned. *)
Definition _supported_backend_check (backend : option string) : M string :=
  match backend with
  | None => raise (MissingBackend msg_backend_none)
  | Some b => ret b
  end.

(** [k not in extra_config] *)
Definition not_in (extra_config : loc) (k : key) : M bool :=
  c ← contains extra_config k; ret (negb c).

(** [_supported_backend_check_config] (lines 65-83) *)
Definition _supported_backend_check_config
    (model : pymodel) (backend : string) (extra_config : loc) : M unit :=
  py_assert (torch_installed env) msg_torch_missing;;
  no_input ← not_in extra_config TEST_INPUT;
  (if bool_decide (backend = torch_jit_name) && no_input
   then raise (RuntimeError msg_jit_needs_input) else ret tt);;
  no_types ← not_in extra_config ONNX_INITIAL_TYPES;
  (if bool_decide (backend = onnx_name)
   then if no_types && no_input
        then raise (RuntimeError msg_onnx_backend_needs_input) else ret tt
   else ret tt);;
  if _is_onnx_model model && no_types && no_input
  then raise (RuntimeError msg_onnx_model_needs_input) else ret tt.

(** [_convert_sklearn] (lines 86-101).  [model] is an object here, so
    [assert model is not None] holds; [deepcopy(model)] copies a value
    this model never updates. *)
Definition _convert_sklearn (model : pymodel) (backend : string)
    (test_input : pyvalue) (device : string) (extra_config : loc) : M hb_model :=
  py_assert (torch_installed env) msg_torch_missing;;
  topology ← call_with_config (parse_sklearn_api_model env model) extra_config;
  call_with_config (topology_converter env topology backend device) extra_config.

(** [_convert_lightgbm] (lines 104-113) *)
Definition _convert_lightgbm (model : pymodel) (backend : string)
    (test_input : pyvalue) (device : string) (extra_config : loc) : M hb_model :=
  py_assert (lightgbm_installed env) msg_lightgbm_missing;;
  _convert_sklearn model backend test_input device extra_config.

(** [_convert_xgboost] (lines 116-143) *)
Definition _convert_xgboost (model : pymodel) (backend : string)
    (test_input : pyvalue) (device : string) (extra_config : loc) : M hb_model :=
  py_assert (xgboost_installed env) msg_xgboost_missing;;
  (match features_count_attr model with
   | Some _features_count => setitem extra_config N_FEATURES _features_count
   | None =>
       if negb (is_none test_input) then
         match test_input with
         | VArray a =>
             match shape a with
             | [_; cols] => setitem extra_config N_FEATURES (VInt (Z.of_nat cols))
             | _ => raise (RuntimeError msg_xgb_bad_input)
             end
         | _ => raise (RuntimeError msg_xgb_bad_input)
         end
       else raise (RuntimeError msg_xgb_no_input)
   end);;
  _convert_sklearn model backend test_input device extra_config.

(** [initial_types[0][1]] *)
Definition first_declared (initial_types : pyvalue) : res tensor_type :=
  match initial_types with
  | VInitialTypes ((_, t) :: _) => Ok t
  | VInitialTypes [] => Raise (IndexError "list index out of range")
  | _ => Raise (TypeError "object is not subscriptable")
  end.

(** [np.random.rand(shape[0], shape[1])] on a declared shape of length
    two; a [None] dimension is not an integer. *)
Definition random_input (sh : list (option nat)) : res ndarray :=
  match sh with
  | [Some rows; Some cols] =>
      Ok (NdArray float64 [rows; cols] (np_random_rand env rows cols))
  | _ => Raise (TypeError "an integer is required")
  end.

(** The draw [np.random.rand(rows, cols)] cast to the element type [dt]. *)
Definition synthesized (rows cols : nat) (dt : np_dtype) : ndarray :=
  np_astype dt (NdArray float64 [rows; cols] (np_random_rand env rows cols)).

(** Lines 174-187: the cast by the class of the declared type. *)
Definition cast_declared (c : tensor_class) (test_input : ndarray) : res ndarray :=
  match c with
  | FloatTensorType => Ok (np_astype float32 test_input)
  | DoubleTensorType => Ok (np_astype float64 test_input)
  | Int32TensorType => Ok (np_astype int32 test_input)
  | Int64TensorType => Ok (np_astype int64 test_input)
  | OtherTensorType _ => Raise (RuntimeError msg_onnx_type)
  end.

(** Lines 164-188: generate some test input if necessary. *)
Definition generate_test_input (backend : string) (initial_types test_input : pyvalue)
    (extra_config : loc) : M pyvalue :=
  if is_none test_input then
    if bool_decide (backend = onnx_name) then
      declared ← (if is_none initial_types
                  then raise (AssertionError msg_onnx_no_shape)
                  else lift (first_declared initial_types));
      match tt_shape declared with
      | None => raise (AssertionError msg_onnx_no_shape)
      | Some sh =>
          py_assert (length sh =? 2)%nat msg_onnx_rank;;
          drawn ← lift (random_input sh);
          test_input ← lift (cast_declared (tt_class declared) drawn);
          setitem extra_config TEST_INPUT (VArray test_input);;
          ret (VArray test_input)
      end
    else ret test_input
  else ret test_input.

(** [{in_.name: in_ for in_ in model.graph.initializer}] *)
Definition collect_initializers (model : pymodel)
    : gmap string (tensor_proto scalar) :=
  match graph_initializer model with
  | None => ∅
  | Some inits => foldl (λ m in_, <[init_name in_ := in_]> m) ∅ inits
  end.

(** Lines 198-203: the graph is parsed and the topology compiled. *)
Definition onnx_parse_and_compile (model : pymodel) (backend : string)
    (device : string) (extra_config : loc) : M hb_model :=
  topology ← lift (parse_onnx_api_model env model);
  call_with_config (topology_converter env topology backend device) extra_config.

(** [_convert_onnxml] (lines 146-203) *)
Definition _convert_onnxml (model : pymodel) (backend : string)
    (test_input : pyvalue) (device : string) (extra_config : loc) : M hb_model :=
  py_assert (torch_installed env) msg_torch_missing;;
  has_types ← contains extra_config ONNX_INITIAL_TYPES;
  initial_types ← (if has_types then getitem extra_config ONNX_INITIAL_TYPES
                   else ret VNone);
  test_input ← generate_test_input backend initial_types test_input extra_config;
  no_features ← not_in extra_config N_FEATURES;
  (if no_features then
     cols ← lift (py_shape_1 test_input);
     setitem extra_config N_FEATURES (VInt (Z.of_nat cols))
   else ret tt);;
  setitem extra_config ONNX_INITIALIZERS (VInitializers (collect_initializers model));;
  onnx_parse_and_compile model backend device extra_config.

(** [_convert_sparkml] (lines 206-221); [model.copy()] copies a value
    this model never updates. *)
Definition _convert_sparkml (model : pymodel) (backend : string)
    (test_input : pyvalue) (device : string) (extra_config : loc) : M hb_model :=
  py_assert (torch_installed env) msg_torch_missing;;
  topology ← call_with_config (parse_sparkml_api_model env model) extra_config;
  call_with_config (topology_converter env topology backend device) extra_config.

(** *** [convert] (lines 224-361) *)

(** Lines 264-269: the sample input becomes a configuration entry. *)
Definition add_test_input (test_input : pyvalue) (extra_config : loc) : M unit :=
  if negb (is_none test_input) then
    no_input ← not_in extra_config TEST_INPUT;
    if no_input then
      nonempty ← (if is_spark_dataframe test_input then ret true
                  else n ← lift (py_len test_input); ret (0 <? n)%nat);
      if nonempty then setitem extra_config TEST_INPUT test_input else ret tt
    else ret tt
  else ret tt.

(** Lines 270-275: the defaults. *)
Definition set_defaults (extra_config : loc) : M unit :=
  no_container ← not_in extra_config CONTAINER;
  (if no_container then setitem extra_config CONTAINER (VBool true) else ret tt);;
  no_threads ← not_in extra_config N_THREADS;
  if no_threads then setitem extra_config N_THREADS (cpu_count env) else ret tt.

(** Lines 281-288: several datasets passed as a tuple. *)
Definition fix_tuple (inputs : list pyvalue) (extra_config : loc) : M unit :=
  py_assert (forallb is_ndarray inputs) msg_only_ndarrays;;
  ranks ← lift (comprehension py_rank inputs);
  py_assert (forallb (λ r, r =? 2)%nat ranks) msg_rank_two;;
  cols ← lift (comprehension py_shape_1 inputs);
  setitem extra_config N_FEATURES (VInt (py_sum cols));;
  setitem extra_config N_INPUTS (VInt (Z.of_nat (length inputs))).

(** Lines 289-297: a pandas frame is split into columnar arrays. *)
Definition fix_pandas (df : pandas_frame scalar) (extra_config : loc) : M unit :=
  setitem extra_config N_INPUTS (VInt (Z.of_nat (length (pd_cols df))));;
  n_inputs ← getitem extra_config N_INPUTS;
  setitem extra_config N_FEATURES n_inputs;;
  let input_names := map col_name (pd_cols df) in
  let splits := map (pd_getitem df) input_names in
  let splits := map (λ sel, reshape_column (pd_to_numpy (pd_rows df) sel)) splits in
  packed ← lift (pack_splits splits);
  setitem extra_config TEST_INPUT packed;;
  setitem extra_config INPUT_NAMES (VList (map VStr input_names)).

(** Lines 298-337: a Spark frame yields one zero array per field. *)
Definition fix_spark (df : spark_frame scalar) (extra_config : loc) : M unit :=
  let input_names := map field_name (sp_fields df) in
  setitem extra_config N_INPUTS (VInt (Z.of_nat (length input_names)));;
  n_inputs ← getitem extra_config N_INPUTS;
  setitem extra_config N_FEATURES n_inputs;;
  let size := length (sp_rows df) in
  row_dict ← lift (first_row_dict df);
  splits ← lift (comprehension (spark_split size row_dict) (sp_fields df));
  packed ← lift (pack_splits splits);
  setitem extra_config TEST_INPUT packed;;
  setitem extra_config INPUT_NAMES (VList (map VStr input_names)).

(** Lines 277-339: fix the test_input type; the result is the new value
    of the local variable [test_input]. *)
Definition fix_test_input (test_input : pyvalue) (extra_config : loc) : M pyvalue :=
  has_input ← contains extra_config TEST_INPUT;
  if has_input then
    v ← getitem extra_config TEST_INPUT;
    (match v with
     | VList l =>
         a ← lift (np_array env l);
         setitem extra_config TEST_INPUT (VArray a)
     | VTuple inputs => fix_tuple inputs extra_config
     | VPandas df =>
         if is_pandas_dataframe v then fix_pandas df extra_config
         else ret tt
     | VSpark df =>
         if is_spark_dataframe v then fix_spark df extra_config
         else ret tt
     | _ => ret tt
     end);;
    getitem extra_config TEST_INPUT
  else ret test_input.

(** Lines 349-361: the dispatch on the family of the model. *)
Definition dispatch (model : pymodel) (backend : string)
    (test_input : pyvalue) (device : string) (extra_config : loc) : M hb_model :=
  if bool_decide (model_type model ∈ xgb_operator_list env) then
    _convert_xgboost model backend test_input device extra_config
  else if bool_decide (model_type model ∈ lgbm_operator_list env) then
    _convert_lightgbm model backend test_input device extra_config
  else if _is_onnx_model model then
    _convert_onnxml model backend test_input device extra_config
  else if _is_sparkml_model model then
    _convert_sparkml model backend test_input device extra_config
  else _convert_sklearn model backend test_input device extra_config.

(** [convert(model, backend, test_input, device, extra_config)].  [model]
    is [None] or an object; [extra_config] is a reference to the
    caller's dict (or to the default one when the argument is left out). *)
Definition convert (model : option pymodel) (backend : string)
    (test_input : pyvalue) (device : string) (extra_config : loc) : M hb_model :=
  match model with
  | None => raise (AssertionError msg_model_none)
  | Some model =>
      extra_config ← deepcopy extra_config;
      add_test_input test_input extra_config;;
      set_defaults extra_config;;
      test_input ← fix_test_input test_input extra_config;
      let backend := lower backend in
      let backend := backends env !! backend in
      backend ← _supported_backend_check backend;
      _supported_backend_check_config model backend extra_config;;
      dispatch model backend test_input device extra_config
  end.

(** Lines 262-339 on the private dict: the sample input is entered,
    the defaults are set and the sample input is brought to a canonical
    form.  The result is the value of [test_input] at line 341. *)
Definition canonicalize (test_input : pyvalue) (extra_config : loc) : M pyvalue :=
  add_test_input test_input extra_config;;
  set_defaults extra_config;;
  fix_test_input test_input extra_config.

(** Lines 341-361: the backend is resolved and checked, the model is
    dispatched. *)
Definition finish (model : pymodel) (backend : string)
    (test_input : pyvalue) (device : string) (extra_config : loc) : M hb_model :=
  backend ← _supported_backend_check (backends env !! lower backend);
  _supported_backend_check_config model backend extra_config;;
  dispatch model backend test_input device extra_config.

(** [convert] after its first two lines, on the private dict. *)
Definition convert_body (model : pymodel) (backend : string)
    (test_input : pyvalue) (device : string) (extra_config : loc) : M hb_model :=
  test_input ← canonicalize test_input extra_config;
  finish model backend test_input device extra_config.
End Convert.

(** ** The failure taxonomy of the specification *)

Inductive failure_kind :=
  | UnsupportedBackend
  | MissingBackendRequirement
  | FeatureInferenceFailure
  | UnsupportedInputRank
  | UnsupportedDataType
  | UnsupportedModelFamily.

(** Which member of the taxonomy each [raise] of [convert.py] stands for:
    the exception class, and for [RuntimeError], [ValueError] and
    [AssertionError] the statement that raised it (told by its message). *)
Definition failure_kind_of (e : exn) : option failure_kind :=
  match e with
  | MissingBackend _ => Some UnsupportedBackend
  | RuntimeError msg =>
      if bool_decide (msg = msg_jit_needs_input) then Some MissingBackendRequirement
      else if bool_decide (msg = msg_onnx_backend_needs_input) then Some MissingBackendRequirement
      else if bool_decide (msg = msg_onnx_model_needs_input) then Some FeatureInferenceFailure
      else if bool_decide (msg = msg_xgb_bad_input) then Some FeatureInferenceFailure
      else if bool_decide (msg = msg_xgb_no_input) then Some FeatureInferenceFailure
      else if bool_decide (msg = msg_onnx_type) then Some UnsupportedDataType
      else None
  | ValueError msg =>
      if bool_decide (msg = msg_spark_dtype) then Some UnsupportedDataType else None
  | AssertionError msg =>
      if bool_decide (msg = msg_onnx_rank) then Some UnsupportedInputRank
      else if bool_decide (msg = msg_rank_two) then Some UnsupportedInputRank
      else None
  | _ => None
  end.

(** ** Vocabulary of the statements *)

Section Vocabulary.
Context {scalar : Type}.

(** A two-dimensional array. *)
Definition two_dim (v : pyvalue scalar) : bool :=
  match v with
  | VArray a => (length (shape a) =? 2)%nat
  | _ => false
  end.

(** The number of dimensions of an array. *)
Definition rank_of (v : pyvalue scalar) : nat :=
  match v with VArray a => length (shape a) | _ => 0%nat end.


(** The column count of an array, [shape[1]] (0 when there is none). *)
Definition columns (a : ndarray scalar) : nat := default 0%nat (shape a !! 1%nat).

Definition value_columns (v : pyvalue scalar) : nat :=
  match v with
  | VArray a => columns a
  | _ => 0%nat
  end.

(** The arrays of a canonical input: the single array, or the members of
    the group. *)
Definition arrays_of (v : pyvalue scalar) : list (pyvalue scalar) :=
  match v with
  | VTuple l => l
  | _ => [v]
  end.

(** The numpy element type a declared tensor class stands for. *)
Definition dtype_of_class (c : tensor_class) : option np_dtype :=
  match c with
  | FloatTensorType => Some float32
  | DoubleTensorType => Some float64
  | Int32TensorType => Some int32
  | Int64TensorType => Some int64
  | OtherTensorType _ => None
  end.



(** The sum of the per-array column counts of a canonical input. *)
Definition total_columns (v : pyvalue scalar) : Z :=
  foldr (λ x acc, Z.of_nat (value_columns x) + acc)%Z 0%Z (arrays_of v).

(** The entries [set_defaults] leaves in a dict. *)
Definition with_defaults (cpus : pyvalue scalar) (c : dict scalar) : dict scalar :=
  let c := if bool_decide (is_Some (c !! CONTAINER)) then c
           else <[CONTAINER := VBool true]> c in
  if bool_decide (is_Some (c !! N_THREADS)) then c else <[N_THREADS := cpus]> c.

(** A computation that, run on a store where the dict at [l] has the
    entries [c], leaves the rest of the store alone and changes the dict
    at most at the keys of [K]. *)
Definition writes_keys {A} (K : list key) (l : loc) (m : M scalar A) : Prop :=
  ∀ (c : dict scalar) (h : heap scalar),
    ∃ c' : dict scalar,
      (m (<[l := c]> h)).2 = <[l := c']> h
      ∧ ∀ k, k ∉ K → c' !! k = c !! k.

(** A computation that writes to no dict object other than the one at [l]. *)
Definition touches_only {A} (l : loc) (m : M scalar A) : Prop :=
  ∀ h l', l' ≠ l → (m h).2 !! l' = h !! l'.
End Vocabulary.

(** ** A concrete environment *)

(** An environment to evaluate the embedding in: integers for array
    elements, the usual registry, a parser that returns the model, and a
    compiler that returns the configuration it was handed. *)
Definition XGBClassifier : pytype := PyType "xgboost.sklearn" "XGBClassifier".
Definition XGBRegressor : pytype := PyType "xgboost.sklearn" "XGBRegressor".
Definition LGBMClassifier : pytype := PyType "lightgbm.sklearn" "LGBMClassifier".
Definition ModelProto : pytype := PyType "onnx.onnx_ml_pb2" "ModelProto".
Definition LogisticRegression : pytype :=
  PyType "sklearn.linear_model._logistic" "LogisticRegression".

(** Only a Spark frame refuses to be copied. *)
Definition demo_deepcopy_error (v : pyvalue Z) : option exn :=
  match v with
  | VSpark _ => Some (TypeError "cannot pickle '_thread.RLock' object")
  | _ => None
  end.

(** numpy's promotion on the four numeric element types. *)
Definition demo_promote (a b : np_dtype) : np_dtype :=
  match a, b with
  | object_, _ | _, object_ => object_
  | float64, _ | _, float64 => float64
  | float32, float32 => float32
  | float32, _ | _, float32 => float64
  | int64, _ | _, int64 => int64
  | int32, int32 => int32
  end.

Definition demo_result_type (l : list np_dtype) : np_dtype :=
  match l with
  | [] => float64
  | a :: l' => foldl demo_promote a l'
  end.

Definition demo_env : Env Z (pymodel Z) (dict Z) := {|
  torch_installed := true;
  lightgbm_installed := true;
  xgboost_installed := true;
  pandas_installed := true;
  sparkml_installed := true;
  backends :=
    <["torch" := "torch"]> (<["pytorch" := "torch"]>
    (<["torch.jit" := "torch.jit"]> (<["torchscript" := "torch.jit"]>
    (<["onnx" := "onnx"]> ∅))));
  xgb_operator_list := [XGBClassifier; XGBRegressor];
  lgbm_operator_list := [LGBMClassifier];
  cpu_count := VInt 4;
  default_extra_config := 1%positive;
  deepcopy_error := demo_deepcopy_error;
  np_result_type := demo_result_type;
  np_array := λ _, Raise (ExternalError "np.array");
  np_random_rand := λ r c, replicate (r * c) 7%Z;
  np_zero := λ _, 0%Z;
  np_cast := λ _ x, x;
  parse_sklearn_api_model := λ m d, (Ok m, d);
  parse_onnx_api_model := λ m, Ok m;
  parse_sparkml_api_model := λ m d, (Ok m, d);
  topology_converter := λ _ _ _ d, (Ok d, d)
|}.

Definition model_of (ty : pytype) : pymodel Z :=
  PyModel ty None false None.

Definition demo_spark_model : pymodel Z :=
  PyModel (PyType "pyspark.ml.classification" "LogisticRegressionModel")
    None true None.

(** The store of a caller that holds one empty dict next to the default
    one. *)
Definition demo_heap : heap Z := <[2%positive := ∅]> (<[1%positive := ∅]> ∅).

(** The store of a caller whose dict holds the entries [c]. *)
Definition demo_heap_with (c : dict Z) : heap Z := <[2%positive := c]> demo_heap.

Definition demo_array (rows cols : nat) : ndarray Z :=
  NdArray float64 [rows; cols] (replicate (rows * cols) 1%Z).

Definition demo_tuple : list (pyvalue Z) :=
  [VArray (demo_array 3 2); VArray (demo_array 3 4)].

Definition demo_frame : pandas_frame Z :=
  PandasFrame 2 [PdColumn "a" float64 [1; 2]; PdColumn "b" float64 [3; 4];
                 PdColumn "c" int64 [5; 6]]%Z.

Definition demo_frame_arrays : list (ndarray Z) :=
  [NdArray float64 [2; 1]%nat [1; 2]%Z; NdArray float64 [2; 1]%nat [3; 4]%Z;
   NdArray int64 [2; 1]%nat [5; 6]%Z].

Definition demo_spark : spark_frame Z :=
  SparkFrame [SparkField "features" VectorUDT; SparkField "age" IntegerType]
    [[SDense [1; 2; 3]; SScalar 30]; [SDense [4; 5; 6]; SScalar 41]]%Z.

Definition demo_vectors : spark_frame Z :=
  SparkFrame [SparkField "features" VectorUDT]
    [[SDense [1; 2; 3]]; [SDense [4; 5; 6]]]%Z.




(** Initial types declaring one float input of shape (1, 4). *)
Definition demo_initial_types : dict Z :=
  {[ONNX_INITIAL_TYPES :=
      VInitialTypes [("input", TensorType FloatTensorType (Some [Some 1%nat; Some 4%nat]))]]}.


(** Initial types declaring one float input of three dimensions. *)
Definition demo_rank3_types : dict Z :=
  {[ONNX_INITIAL_TYPES :=
      VInitialTypes [("input", TensorType FloatTensorType
                                 (Some [Some 1%nat; Some 4%nat; Some 2%nat]))]]}.

(** An array of one dimension. *)
Definition demo_vector : ndarray Z := NdArray float64 [4]%nat [1; 2; 3; 4]%Z.

(** An ONNX model with two initializers. *)
Definition demo_initializers : list (tensor_proto Z) :=
  [TensorProto "coefficients" [4]%nat [1; 2; 3; 4]%Z;
   TensorProto "intercepts" [1]%nat [5]%Z].

Definition demo_onnx_model : pymodel Z :=
  PyModel ModelProto None false (Some demo_initializers).

(** A Spark frame whose second field is of a type the loop does not know. *)
Definition demo_spark_text : spark_frame Z :=
  SparkFrame [SparkField "age" IntegerType;
              SparkField "name" (OtherSparkType "StringType")]
    [[SScalar 30; SScalar 0]]%Z.


(** ** Running computations on a store *)

Section Running.
Context {scalar topology hb_model : Type}.
Context (env : Env scalar topology hb_model).

#[local] Abbreviation pyvalue := (pyvalue scalar).
#[local] Abbreviation heap := (heap scalar).
#[local] Abbreviation dict := (dict scalar).

Lemma deref_insert (l : loc) (c : dict) (h : heap) : deref l (<[l := c]> h) = c.
Proof. unfold deref. apply lookup_total_insert_eq. Qed.

Lemma run_setitem l k v (c : dict) (h : heap) :
  setitem l k v (<[l := c]> h) = (Ok tt, <[l := <[k := v]> c]> h).
Proof. unfold setitem. by rewrite deref_insert, insert_insert_eq. Qed.

Lemma run_contains l k (c : dict) (h : heap) :
  contains l k (<[l := c]> h)
  = (Ok (bool_decide (is_Some (c !! k))), <[l := c]> h).
Proof. unfold contains. by rewrite deref_insert. Qed.

Lemma run_not_in l k (c : dict) (h : heap) :
  not_in l k (<[l := c]> h)
  = (Ok (negb (bool_decide (is_Some (c !! k)))), <[l := c]> h).
Proof. unfold not_in, bind. by rewrite run_contains. Qed.

Lemma run_getitem l k (c : dict) (h : heap) v :
  c !! k = Some v → getitem l k (<[l := c]> h) = (Ok v, <[l := c]> h).
Proof. intros Hk. unfold getitem. by rewrite deref_insert, Hk. Qed.

Lemma run_call_with_config {A} (f : dict → res A * dict) l (c : dict) (h : heap) :
  call_with_config f l (<[l := c]> h) = ((f c).1, <[l := (f c).2]> h).
Proof.
  unfold call_with_config. rewrite deref_insert.
  destruct (f c) as [r d]. by rewrite insert_insert_eq.
Qed.

(** The object [deepcopy] creates is none of those alive. *)
Lemma fresh_not_alive (h : heap) (l : loc) (c : dict) :
  h !! l = Some c → l ≠ fresh (dom h).
Proof.
  intros Hl Heq. apply (is_fresh (dom h)). rewrite <- Heq.
  apply elem_of_dom. by eexists.
Qed.

(** *** Writing to one dict only *)

Lemma touches_only_ret {A} l (a : A) : touches_only (scalar:=scalar) l (ret a).
Proof. by intros h l' _. Qed.

Lemma touches_only_raise {A} l e : touches_only (scalar:=scalar) (A:=A) l (raise e).
Proof. by intros h l' _. Qed.

Lemma touches_only_lift {A} l (r : res A) : touches_only (scalar:=scalar) l (lift r).
Proof. by intros h l' _. Qed.

Lemma touches_only_bind {A B} l (m : M scalar A) (f : A → M scalar B) :
  touches_only l m → (∀ a, touches_only l (f a)) → touches_only l (bind m f).
Proof.
  intros Hm Hf h l' Hne. unfold bind.
  specialize (Hm h l' Hne). destruct (m h) as [[a|e] h1]; simpl in *.
  - by rewrite (Hf a h1 l' Hne).
  - done.
Qed.

Lemma touches_only_if {A} l (b : bool) (m1 m2 : M scalar A) :
  touches_only l m1 → touches_only l m2 → touches_only l (if b then m1 else m2).
Proof. by destruct b. Qed.

Lemma touches_only_assert l b msg : touches_only (scalar:=scalar) l (py_assert b msg).
Proof. destruct b; [apply touches_only_ret | apply touches_only_raise]. Qed.

Lemma touches_only_contains l k : touches_only (scalar:=scalar) l (contains l k).
Proof. by intros h l' _. Qed.

Lemma touches_only_getitem l k : touches_only (scalar:=scalar) l (getitem l k).
Proof. intros h l' _. unfold getitem. by destruct (deref l h !! k). Qed.

Lemma touches_only_setitem l k v : touches_only (scalar:=scalar) l (setitem l k v).
Proof. intros h l' Hne. unfold setitem; simpl. by rewrite lookup_insert_ne. Qed.

Lemma touches_only_not_in l k : touches_only (scalar:=scalar) l (not_in l k).
Proof.
  apply touches_only_bind; [apply touches_only_contains |].
  intros; apply touches_only_ret.
Qed.

Lemma touches_only_call {A} l (f : dict → res A * dict) :
  touches_only l (call_with_config f l).
Proof.
  intros h l' Hne. unfold call_with_config.
  destruct (f (deref l h)); simpl. by rewrite lookup_insert_ne.
Qed.
End Running.

(** ** The caller's configuration (C8) *)

Ltac touch :=
  repeat first
    [ apply touches_only_ret
    | apply touches_only_raise
    | apply touches_only_lift
    | apply touches_only_assert
    | apply touches_only_contains
    | apply touches_only_not_in
    | apply touches_only_getitem
    | apply touches_only_setitem
    | apply touches_only_call
    | apply touches_only_bind
    | apply touches_only_if
    | match goal with
      | |- touches_only _ (match ?x with _ => _ end) => destruct x
      | |- ∀ _, touches_only _ _ => intro
      end ].

Section Frame.
Context {scalar topology hb_model : Type}.
Context (env : Env scalar topology hb_model).

Lemma touches_only_add_test_input test_input l :
  touches_only l (add_test_input env test_input l).
Proof. unfold add_test_input. touch. Qed.

Lemma touches_only_set_defaults l : touches_only l (set_defaults env l).
Proof. unfold set_defaults. touch. Qed.

Lemma touches_only_fix_test_input test_input l :
  touches_only l (fix_test_input env test_input l).
Proof. unfold fix_test_input, fix_tuple, fix_pandas, fix_spark. touch. Qed.

Lemma touches_only_check_config model backend l :
  touches_only l (_supported_backend_check_config env model backend l).
Proof. unfold _supported_backend_check_config. touch. Qed.

Lemma touches_only_convert_sklearn model backend test_input device l :
  touches_only l (_convert_sklearn env model backend test_input device l).
Proof. unfold _convert_sklearn. touch. Qed.

Lemma touches_only_convert_xgboost model backend test_input device l :
  touches_only l (_convert_xgboost env model backend test_input device l).
Proof.
  unfold _convert_xgboost.
  apply touches_only_bind; [touch |]. intros _.
  apply touches_only_bind; [touch |]. intros _.
  apply touches_only_convert_sklearn.
Qed.

Lemma touches_only_convert_onnxml model backend test_input device l :
  touches_only l (_convert_onnxml env model backend test_input device l).
Proof. unfold _convert_onnxml, generate_test_input, onnx_parse_and_compile. touch. Qed.

Lemma touches_only_dispatch model backend test_input device l :
  touches_only l (dispatch env model backend test_input device l).
Proof.
  unfold dispatch. repeat apply touches_only_if.
  - apply touches_only_convert_xgboost.
  - unfold _convert_lightgbm. apply touches_only_bind; [touch |]. intros _.
    apply touches_only_convert_sklearn.
  - apply touches_only_convert_onnxml.
  - unfold _convert_sparkml. touch.
  - apply touches_only_convert_sklearn.
Qed.


Lemma convert_unfold model backend test_input device extra_config h :
  deepcopy_refusal env (deref extra_config h) = None →
  convert env (Some model) backend test_input device extra_config h
  = convert_body env model backend test_input device (fresh (dom h))
      (<[fresh (dom h) := deref extra_config h]> h).
Proof.
  intros Hcopy.
  unfold convert, convert_body, canonicalize, finish, bind, deepcopy.
  rewrite Hcopy.
  destruct (add_test_input _ _ _ _) as [[[]|e] h1]; [| done].
  destruct (set_defaults _ _ _) as [[[]|e] h2]; [| done].
  by destruct (fix_test_input _ _ _ _) as [[ti|e] h3].
Qed.

(** A configuration that cannot be copied ends the call at line 260. *)
Lemma convert_uncopyable model backend test_input device extra_config h e :
  deepcopy_refusal env (deref extra_config h) = Some e →
  convert env (Some model) backend test_input device extra_config h = (Raise e, h).
Proof. intros Hcopy. unfold convert, bind, deepcopy. by rewrite Hcopy. Qed.

Lemma touches_only_convert_body model backend test_input device l :
  touches_only l (convert_body env model backend test_input device l).
Proof.
  unfold convert_body, canonicalize, finish.
  apply touches_only_bind.
  { apply touches_only_bind; [apply touches_only_add_test_input |]. intros _.
    apply touches_only_bind; [apply touches_only_set_defaults |]. intros _.
    apply touches_only_fix_test_input. }
  intros ti.
  apply touches_only_bind; [unfold _supported_backend_check; touch |]. intros b.
  apply touches_only_bind; [apply touches_only_check_config |]. intros _.
  apply touches_only_dispatch.
Qed.

(** [convert] leaves every dict that is alive when it is called as it
    found it. *)
Lemma convert_frame
    (model : option (pymodel scalar)) (backend : string)
    (test_input : pyvalue scalar) (device : string) (extra_config : loc)
    (h : heap scalar) (l : loc) (c : dict scalar) :
  h !! l = Some c →
  (convert env model backend test_input device extra_config h).2 !! l = Some c.
Proof.
  intros Hl. destruct model as [model|]; [| exact Hl].
  destruct (deepcopy_refusal env (deref extra_config h)) as [e|] eqn:Hcopy;
    [by rewrite (convert_uncopyable _ _ _ _ _ _ e) |].
  rewrite convert_unfold by done.
  rewrite (touches_only_convert_body model backend test_input device _ _ l).
  - rewrite lookup_insert_ne; [exact Hl |].
    intros Heq. by apply (fresh_not_alive h l c).
  - by apply (fresh_not_alive h l c).
Qed.

(** C8.  [convert] never updates a dict object that was alive when it
    was called: whatever the arguments, and whether the call returns or
    raises, every dict [l] of the store [h] (the caller's [extra_config],
    and the default dict bound to the parameter) holds afterwards exactly
    the entries it held before, since all writes go to the copy
    [deepcopy] made at the start of the call.  The same is true after a
    second call: no entry reaches it through a dict of the first, the
    default one included. *)
Theorem convert_keeps_caller_config
    (model : option (pymodel scalar)) (backend : string)
    (test_input : pyvalue scalar) (device : string) (extra_config : loc)
    (h : heap scalar) (l : loc) (c : dict scalar) :
  h !! l = Some c →
  (convert env model backend test_input device extra_config h).2 !! l = Some c
  ∧ ∀ model2 backend2 test_input2 device2 extra_config2,
      (convert env model2 backend2 test_input2 device2 extra_config2
         (convert env model backend test_input device extra_config h).2).2 !! l
      = Some c.
Proof.
  intros Hl.
  pose proof (convert_frame model backend test_input device extra_config h l c Hl)
    as Hfirst.
  split; [exact Hfirst |].
  intros model2 backend2 test_input2 device2 extra_config2.
  by apply convert_frame.
Qed.
End Frame.

(** ** The stages of [convert] on the private dict *)

Section Stages.
Context {scalar topology hb_model : Type}.
Context (env : Env scalar topology hb_model).

#[local] Abbreviation pyvalue := (pyvalue scalar).
#[local] Abbreviation heap := (heap scalar).
#[local] Abbreviation dict := (dict scalar).

Lemma bool_decide_is_Some_None {A} (o : option A) :
  o = None → bool_decide (is_Some o) = false.
Proof. intros ->. apply bool_decide_eq_false. by intros [x ?]. Qed.

Lemma bool_decide_is_Some_Some {A} (o : option A) x :
  o = Some x → bool_decide (is_Some o) = true.
Proof. intros ->. apply bool_decide_eq_true. by eexists. Qed.




(** An entry already in the configuration wins over the argument. *)
Lemma run_add_test_input_present test_input l (c : dict) (h : heap) v :
  c !! TEST_INPUT = Some v →
  add_test_input env test_input l (<[l := c]> h) = (Ok tt, <[l := c]> h).
Proof.
  intros Hc. unfold add_test_input.
  destruct (is_none test_input); [done |]. cbn [negb].
  unfold bind at 1. rewrite run_not_in.
  by rewrite (bool_decide_is_Some_Some _ _ Hc).
Qed.

Lemma run_set_defaults l (c : dict) (h : heap) :
  set_defaults env l (<[l := c]> h)
  = (Ok tt, <[l := with_defaults (cpu_count env) c]> h).
Proof.
  unfold set_defaults, with_defaults.
  unfold bind at 1. rewrite run_not_in.
  destruct (bool_decide (is_Some (c !! CONTAINER))); cbn [negb].
  - unfold bind at 1, ret at 1. unfold bind at 1. rewrite run_not_in.
    destruct (bool_decide (is_Some (c !! N_THREADS))); cbn [negb]; [done |].
    by rewrite run_setitem.
  - unfold bind at 1. rewrite run_setitem.
    unfold bind at 1. rewrite run_not_in.
    destruct (bool_decide (is_Some (<[CONTAINER:=VBool true]> c !! N_THREADS)));
      cbn [negb]; [done |].
    by rewrite run_setitem.
Qed.

Lemma with_defaults_lookup cpus (c : dict) k :
  k ≠ CONTAINER → k ≠ N_THREADS → with_defaults cpus c !! k = c !! k.
Proof.
  intros H1 H2. unfold with_defaults.
  repeat case_bool_decide; by rewrite ?lookup_insert_ne.
Qed.


(** *** Comprehensions *)

Lemma forallb_elem {A} (f : A → bool) (l : list A) x :
  forallb f l = true → x ∈ l → f x = true.
Proof.
  intros Hall Hx. apply list_elem_of_In in Hx.
  by apply (proj1 (forallb_forall f l) Hall).
Qed.

Lemma comprehension_ok {A B} (f : A → res B) (g : A → B) (l : list A) :
  Forall (λ x, f x = Ok (g x)) l → comprehension f l = Ok (map g l).
Proof.
  induction 1 as [| x l Hx _ IH]; [done |].
  cbn. by rewrite Hx, IH.
Qed.

(** *** The tuple path *)

Lemma two_dim_split (inputs : list pyvalue) :
  forallb two_dim inputs
  = forallb is_ndarray inputs && forallb (λ r, r =? 2)%nat (map rank_of inputs).
Proof.
  induction inputs as [| v inputs IH]; [done |].
  cbn [forallb map]. rewrite IH.
  destruct v as [| | | | | | a | | | | |]; cbn; try done.
  destruct (length (shape a) =? 2)%nat; cbn; [done |].
  by rewrite andb_false_r.
Qed.

Lemma ranks_of_arrays (inputs : list pyvalue) :
  forallb is_ndarray inputs = true →
  comprehension py_rank inputs = Ok (map rank_of inputs).
Proof.
  intros Hall. apply comprehension_ok.
  apply Forall_forall. intros v Hv.
  apply (forallb_elem _ _ _ Hall) in Hv. by destruct v.
Qed.

Lemma columns_of_two_dim (inputs : list pyvalue) :
  forallb two_dim inputs = true →
  comprehension py_shape_1 inputs = Ok (map value_columns inputs).
Proof.
  intros Hall. apply comprehension_ok.
  apply Forall_forall. intros v Hv.
  apply (forallb_elem _ _ _ Hall) in Hv.
  destruct v as [| | | | | | a | | | | |]; try done.
  cbn in Hv. unfold py_shape_1, value_columns, columns; cbn.
  destruct (shape a) as [| r [| cols [| ? ?]]]; done.
Qed.

Lemma py_sum_columns (inputs : list pyvalue) :
  py_sum (map value_columns inputs) = total_columns (VTuple inputs).
Proof.
  unfold total_columns, py_sum; cbn.
  induction inputs as [| v inputs IH]; [done |]. cbn. by rewrite IH.
Qed.

Lemma run_fix_tuple_ok (inputs : list pyvalue) l (c : dict) (h : heap) :
  forallb two_dim inputs = true →
  fix_tuple inputs l (<[l := c]> h)
  = (Ok tt,
     <[l := <[N_INPUTS := VInt (Z.of_nat (length inputs))]>
              (<[N_FEATURES := VInt (total_columns (VTuple inputs))]> c)]> h).
Proof.
  intros Hall. pose proof Hall as Hsplit.
  rewrite two_dim_split in Hsplit. apply andb_true_iff in Hsplit as [Harr Hrank].
  unfold fix_tuple, bind, py_assert, lift, ret.
  rewrite Harr, (ranks_of_arrays _ Harr), Hrank, (columns_of_two_dim _ Hall).
  by rewrite !run_setitem, py_sum_columns.
Qed.

Lemma run_fix_tuple_reject (inputs : list pyvalue) l (h : heap) :
  forallb two_dim inputs = false →
  ∃ msg, fix_tuple inputs l h = (Raise (AssertionError msg), h).
Proof.
  intros Hall. rewrite two_dim_split in Hall.
  unfold fix_tuple, bind, py_assert, lift, ret, raise.
  destruct (forallb is_ndarray inputs) eqn:Harr; [| by eexists].
  rewrite (ranks_of_arrays _ Harr). cbn in Hall. rewrite Hall. by eexists.
Qed.
End Stages.

(** ** The stage that fixes the sample input *)

Section Canonical.
Context {scalar topology hb_model : Type}.
Context (env : Env scalar topology hb_model).

#[local] Abbreviation pyvalue := (pyvalue scalar).
#[local] Abbreviation heap := (heap scalar).
#[local] Abbreviation dict := (dict scalar).

Lemma alive_insert (h : heap) l (c : dict) : h !! l = Some c → <[l := c]> h = h.
Proof. apply insert_id. Qed.

(** A tuple held by the configuration: accepted exactly when every member
    is a two-dimensional array. *)
Lemma fix_test_input_of_tuple
    (test_input : pyvalue) (l : loc) (h : heap) (c : dict) (inputs : list pyvalue) :
  h !! l = Some c →
  c !! TEST_INPUT = Some (VTuple inputs) →
  (forallb two_dim inputs = true →
   fix_test_input env test_input l h
   = (Ok (VTuple inputs),
      <[l := <[N_INPUTS := VInt (Z.of_nat (length inputs))]>
               (<[N_FEATURES := VInt (total_columns (VTuple inputs))]> c)]> h))
  ∧ (forallb two_dim inputs = false →
     ∃ msg, fix_test_input env test_input l h = (Raise (AssertionError msg), h)).
Proof.
  intros Hl Hc. split; intros Hall.
  - rewrite <- (alive_insert h l c Hl), insert_insert_eq.
    unfold fix_test_input, bind. rewrite run_contains.
    rewrite (bool_decide_is_Some_Some _ _ Hc), (run_getitem _ _ _ _ _ Hc).
    rewrite (run_fix_tuple_ok _ _ _ _ Hall).
    erewrite run_getitem; [done |].
    by rewrite !lookup_insert_ne.
  - destruct (run_fix_tuple_reject inputs l h Hall) as [msg Hmsg].
    exists msg. revert Hmsg. rewrite <- (alive_insert h l c Hl). intros Hmsg.
    unfold fix_test_input, bind. rewrite run_contains.
    rewrite (bool_decide_is_Some_Some _ _ Hc), (run_getitem _ _ _ _ _ Hc).
    by rewrite Hmsg.
Qed.

(** *** The pandas path *)







(** *** The Spark path *)

Lemma spark_splits size row_dict (fields : list spark_field) layouts :
  comprehension (spark_field_layout row_dict) fields = Ok layouts →
  comprehension (spark_split env size row_dict) fields
  = Ok (map (zero_array env size) layouts).
Proof.
  revert layouts. induction fields as [| field fields IH]; intros layouts; cbn.
  - by intros [= <-].
  - unfold spark_split at 1.
    destruct (spark_field_layout row_dict field) as [[dt w]|e]; [| done].
    destruct (comprehension (spark_field_layout row_dict) fields); [| done].
    intros [= <-]. by rewrite (IH _ eq_refl).
Qed.



End Canonical.

(** ** The backend: lookup and preconditions (C1, C5) *)

Section Backend.
Context {scalar topology hb_model : Type}.
Context (env : Env scalar topology hb_model).

#[local] Abbreviation pyvalue := (pyvalue scalar).
#[local] Abbreviation pymodel := (pymodel scalar).
#[local] Abbreviation heap := (heap scalar).
#[local] Abbreviation dict := (dict scalar).

(** [convert] is the canonicalization of the sample input on the private
    copy, followed by [finish]. *)
Lemma convert_stages (model : pymodel) backend test_input device extra_config
    (h : heap) :
  deepcopy_refusal env (deref extra_config h) = None →
  convert env (Some model) backend test_input device extra_config h
  = match canonicalize env test_input (fresh (dom h))
            (<[fresh (dom h) := deref extra_config h]> h) with
    | (Ok test_input', h') =>
        finish env model backend test_input' device (fresh (dom h)) h'
    | (Raise e, h') => (Raise e, h')
    end.
Proof. intros Hcopy. by rewrite convert_unfold. Qed.


Lemma run_finish_unregistered (model : pymodel) backend test_input device l (h : heap) :
  backends env !! lower backend = None →
  finish env model backend test_input device l h
  = (Raise (MissingBackend msg_backend_none), h).
Proof. intros Hb. unfold finish, bind. by rewrite Hb. Qed.

Lemma run_finish_registered (model : pymodel) backend b test_input device l (h : heap) :
  backends env !! lower backend = Some b →
  finish env model backend test_input device l h
  = (_supported_backend_check_config env model b l;;
     dispatch env model b test_input device l) h.
Proof. intros Hb. unfold finish. unfold bind at 1. by rewrite Hb. Qed.

(** [lower] sends the two cases of a letter to the same character. *)
Lemma lower_ascii_same_letter (c1 c2 : ascii) :
  same_letter c1 c2 = true → lower_ascii c1 = lower_ascii c2.
Proof.
  unfold same_letter, lower_ascii.
  intros Hsame. apply orb_true_iff in Hsame as [Hsame | Hcase].
  - apply orb_true_iff in Hsame as [Heq | Hcase].
    + apply Nat.eqb_eq in Heq.
      assert (c1 = c2) as ->; [| done].
      by rewrite <- (ascii_nat_embedding c1), Heq, ascii_nat_embedding.
    + apply andb_true_iff in Hcase as [Hrange Hoff].
      apply andb_true_iff in Hrange as [Hlo Hhi].
      apply Nat.leb_le in Hlo, Hhi. apply Nat.eqb_eq in Hoff.
      rewrite (proj2 (Nat.leb_gt (nat_of_ascii c1) 90)) by lia.
      rewrite andb_false_r.
      rewrite (proj2 (Nat.leb_le 65 (nat_of_ascii c2))) by lia.
      rewrite (proj2 (Nat.leb_le (nat_of_ascii c2) 90)) by lia.
      cbn [andb]. by rewrite Hoff, ascii_nat_embedding.
  - apply andb_true_iff in Hcase as [Hrange Hoff].
    apply andb_true_iff in Hrange as [Hlo Hhi].
    apply Nat.leb_le in Hlo, Hhi. apply Nat.eqb_eq in Hoff.
    rewrite (proj2 (Nat.leb_gt (nat_of_ascii c2) 90)) by lia.
    rewrite andb_false_r.
    rewrite (proj2 (Nat.leb_le 65 (nat_of_ascii c1))) by lia.
    rewrite (proj2 (Nat.leb_le (nat_of_ascii c1) 90)) by lia.
    cbn [andb]. by rewrite Hoff, ascii_nat_embedding.
Qed.

Lemma lower_same_up_to_case (s1 s2 : string) :
  same_up_to_case s1 s2 = true → lower s1 = lower s2.
Proof.
  revert s2. induction s1 as [| c1 s1 IH]; intros [| c2 s2]; cbn; try done.
  intros Hsame. apply andb_true_iff in Hsame as [Hc Hs].
  by rewrite (lower_ascii_same_letter _ _ Hc), (IH _ Hs).
Qed.

(** C1, as the code has it.  The backend name is looked up in the
    registry after lowercasing: two names that differ only in the case of
    their letters make the same call, whatever else happens in it.  When
    the model is an object, the caller's configuration has been copied and
    the canonicalization of the sample input has returned, a name whose
    lowercase form is not registered makes the call raise
    [MissingBackend]: whatever the model is, nothing is written after the
    canonicalization, and neither the configuration checks nor the
    dispatch are reached. *)
Theorem unregistered_backend_rejected
    (model : pymodel) (backend : string) (test_input : pyvalue)
    (device : string) (extra_config : loc) (h : heap) :
  (∀ backend2, same_up_to_case backend backend2 = true →
     convert env (Some model) backend2 test_input device extra_config h
     = convert env (Some model) backend test_input device extra_config h)
  ∧ (∀ test_input' h',
       deepcopy env extra_config h
       = (Ok (fresh (dom h)), <[fresh (dom h) := deref extra_config h]> h) →
       canonicalize env test_input (fresh (dom h))
         (<[fresh (dom h) := deref extra_config h]> h) = (Ok test_input', h') →
       backends env !! lower backend = None →
       convert env (Some model) backend test_input device extra_config h
       = (Raise (MissingBackend msg_backend_none), h')
       ∧ failure_kind_of (MissingBackend msg_backend_none)
         = Some UnsupportedBackend).
Proof.
  split.
  - intros backend2 Hsame. apply lower_same_up_to_case in Hsame.
    destruct (deepcopy_refusal env (deref extra_config h)) as [e|] eqn:Hcopy;
      [by rewrite !(convert_uncopyable env _ _ _ _ _ _ e) |].
    rewrite !convert_stages by done.
    destruct (canonicalize _ _ _ _) as [[ti|e] h1]; [| done].
    unfold finish. by rewrite Hsame.
  - intros test_input' h' Hcopy Hcanon Hb. split; [| done].
    assert (deepcopy_refusal env (deref extra_config h) = None) as Hnone.
    { unfold deepcopy in Hcopy.
      by destruct (deepcopy_refusal env (deref extra_config h)). }
    rewrite convert_stages, Hcanon by done. by apply run_finish_unregistered.
Qed.

(** *** The configuration checks *)

Lemma run_check_config (model : pymodel) backend l (c : dict) (h : heap) :
  torch_installed env = true →
  _supported_backend_check_config env model backend l (<[l := c]> h)
  = let no_input := negb (bool_decide (is_Some (c !! TEST_INPUT))) in
    let no_types := negb (bool_decide (is_Some (c !! ONNX_INITIAL_TYPES))) in
    (if bool_decide (backend = torch_jit_name) && no_input
     then Raise (RuntimeError msg_jit_needs_input)
     else if bool_decide (backend = onnx_name) && (no_types && no_input)
     then Raise (RuntimeError msg_onnx_backend_needs_input)
     else if _is_onnx_model model && no_types && no_input
     then Raise (RuntimeError msg_onnx_model_needs_input)
     else Ok tt, <[l := c]> h).
Proof.
  intros Htorch. unfold _supported_backend_check_config.
  rewrite Htorch. unfold py_assert. unfold bind at 1, ret at 1.
  unfold bind at 1. rewrite run_not_in.
  destruct (bool_decide (backend = torch_jit_name)); cbn [andb];
    destruct (negb (bool_decide (is_Some (c !! TEST_INPUT)))); try done;
    unfold bind at 1, ret at 1; unfold bind at 1; rewrite run_not_in;
    destruct (bool_decide (backend = onnx_name)); cbn [andb];
    destruct (negb (bool_decide (is_Some (c !! ONNX_INITIAL_TYPES)))); cbn [andb];
    try done;
    unfold bind, ret, raise; rewrite ?andb_false_r; cbn [andb];
    by destruct (_is_onnx_model model).
Qed.

(** What [finish] does on a configuration without sample input, once
    the backend is resolved. *)
Lemma finish_refusals
    (model : pymodel) (name backend : string) (test_input : pyvalue)
    (device : string) (l : loc) (h : heap) (c : dict) :
  torch_installed env = true →
  backends env !! lower name = Some backend →
  h !! l = Some c →
  c !! TEST_INPUT = None →
  (backend = torch_jit_name →
   finish env model name test_input device l h
   = (Raise (RuntimeError msg_jit_needs_input), h))
  ∧ (backend = onnx_name → c !! ONNX_INITIAL_TYPES = None →
     finish env model name test_input device l h
     = (Raise (RuntimeError msg_onnx_backend_needs_input), h))
  ∧ (_is_onnx_model model = true → c !! ONNX_INITIAL_TYPES = None →
     (∃ e, finish env model name test_input device l h = (Raise e, h))
     ∧ (backend ≠ torch_jit_name → backend ≠ onnx_name →
        finish env model name test_input device l h
        = (Raise (RuntimeError msg_onnx_model_needs_input), h))).
Proof.
  intros Htorch Hb Hl Hc.
  assert (finish env model name test_input device l h
          = (_supported_backend_check_config env model backend l;;
             dispatch env model backend test_input device l) (<[l := c]> h)) as Hfin.
  { rewrite (alive_insert h l c Hl). by apply run_finish_registered. }
  rewrite Hfin. unfold bind. rewrite (run_check_config _ _ _ _ _ Htorch).
  rewrite (bool_decide_is_Some_None _ Hc). cbn [negb andb].
  rewrite (alive_insert h l c Hl).
  split; [| split].
  - intros ->. by rewrite bool_decide_eq_true_2.
  - intros -> Ht. rewrite (bool_decide_is_Some_None _ Ht).
    by rewrite bool_decide_eq_false_2, bool_decide_eq_true_2.
  - intros Honnx Ht. rewrite Honnx, (bool_decide_is_Some_None _ Ht).
    cbn [negb andb]. rewrite !andb_true_r. split.
    + destruct (bool_decide (backend = torch_jit_name)); [by eexists |].
      destruct (bool_decide (backend = onnx_name)); by eexists.
    + intros Hj Ho. by rewrite !bool_decide_eq_false_2.
Qed.

(** C5, as the code has it.  Once the backend is resolved, and before
    the model is dispatched, the configuration is checked: with no
    sample input in it, the [torch.jit] backend is refused; with neither
    sample input nor initial types, the [onnx] backend is refused, and so
    is every ONNX model whatever the backend.  The three refusals are
    tried in this order, so an ONNX model is refused with the message of
    its own check only under a backend that is neither [torch.jit] nor
    [onnx].  A refusal leaves the store as it found it. *)
Theorem backend_preconditions
    (model : pymodel) (name backend : string) (test_input : pyvalue)
    (device : string) (l : loc) (h : heap) (c : dict) :
  torch_installed env = true →
  backends env !! lower name = Some backend →
  h !! l = Some c →
  c !! TEST_INPUT = None →
  (backend = torch_jit_name →
   finish env model name test_input device l h
   = (Raise (RuntimeError msg_jit_needs_input), h))
  ∧ (backend = onnx_name → c !! ONNX_INITIAL_TYPES = None →
     finish env model name test_input device l h
     = (Raise (RuntimeError msg_onnx_backend_needs_input), h))
  ∧ (_is_onnx_model model = true → c !! ONNX_INITIAL_TYPES = None →
     (∃ e, finish env model name test_input device l h = (Raise e, h))
     ∧ (backend ≠ torch_jit_name → backend ≠ onnx_name →
        finish env model name test_input device l h
        = (Raise (RuntimeError msg_onnx_model_needs_input), h)))
  ∧ failure_kind_of (RuntimeError msg_jit_needs_input)
    = Some MissingBackendRequirement
  ∧ failure_kind_of (RuntimeError msg_onnx_backend_needs_input)
    = Some MissingBackendRequirement
  ∧ failure_kind_of (RuntimeError msg_onnx_model_needs_input)
    = Some FeatureInferenceFailure.
Proof.
  intros Htorch Hb Hl Hc.
  destruct (finish_refusals model name backend test_input device l h c
              Htorch Hb Hl Hc) as (Hjit & Honnx & Hmodel).
  repeat split; try done; by apply Hmodel.
Qed.
End Backend.

(** ** The feature count per family (C2, C4) *)

Section Families.
Context {scalar topology hb_model : Type}.
Context (env : Env scalar topology hb_model).

#[local] Abbreviation pyvalue := (pyvalue scalar).
#[local] Abbreviation pymodel := (pymodel scalar).
#[local] Abbreviation heap := (heap scalar).
#[local] Abbreviation dict := (dict scalar).

(** C2.  For a model of an XGBoost class, [convert] dispatches to
    [_convert_xgboost], and there: when the model has the attribute
    [_features_count], its value is entered as the feature count; when
    it has not and the sample input is a two-dimensional array, the
    number of columns of the array is entered; in both cases the
    conversion goes on with [_convert_sklearn] on the configuration so
    extended.  When the model has no such attribute and the sample input
    is absent or is not a two-dimensional array, the call raises the
    [RuntimeError] of the feature inference and writes nothing. *)
Theorem xgboost_feature_count
    (model : pymodel) (backend : string) (test_input : pyvalue)
    (device : string) (l : loc) (h : heap) :
  xgboost_installed env = true →
  (model_type model ∈ xgb_operator_list env →
   dispatch env model backend test_input device l
   = _convert_xgboost env model backend test_input device l)
  ∧ (∀ v, features_count_attr model = Some v →
     _convert_xgboost env model backend test_input device l h
     = _convert_sklearn env model backend test_input device l
         (<[l := <[N_FEATURES := v]> (deref l h)]> h))
  ∧ (∀ a, features_count_attr model = None →
     test_input = VArray a → two_dim test_input = true →
     _convert_xgboost env model backend test_input device l h
     = _convert_sklearn env model backend test_input device l
         (<[l := <[N_FEATURES := VInt (Z.of_nat (columns a))]> (deref l h)]> h))
  ∧ (features_count_attr model = None → two_dim test_input = false →
     ∃ msg,
       _convert_xgboost env model backend test_input device l h
       = (Raise (RuntimeError msg), h)
       ∧ failure_kind_of (RuntimeError msg) = Some FeatureInferenceFailure).
Proof.
  intros Hxgb. split; [| split; [| split]].
  - intros Hty. unfold dispatch. by rewrite bool_decide_eq_true_2.
  - intros v Hattr. unfold _convert_xgboost. rewrite Hxgb, Hattr. done.
  - intros a Hattr -> Hdim. unfold _convert_xgboost. rewrite Hxgb, Hattr.
    cbn in Hdim |- *. unfold columns.
    destruct (shape a) as [| r [| cols [| ? ?]]]; done.
  - intros Hattr Hdim. unfold _convert_xgboost. rewrite Hxgb, Hattr.
    destruct test_input as [| | | | | | a | | | | |];
      try (by exists msg_xgb_bad_input); try (by exists msg_xgb_no_input).
    exists msg_xgb_bad_input. cbn in Hdim |- *.
    destruct (shape a) as [| r [| cols [| ? ?]]]; done.
Qed.

(** *** ONNX models *)

(** The sample input [_convert_onnxml] generates for a declared shape
    [(rows, cols)] and element type [dt]. *)
Lemma run_generate_test_input initial_types name cls rows cols rest dt
    l (c : dict) (h : heap) :
  initial_types
  = VInitialTypes ((name, TensorType cls (Some [Some rows; Some cols])) :: rest) →
  dtype_of_class cls = Some dt →
  generate_test_input env onnx_name initial_types VNone l (<[l := c]> h)
  = (Ok (VArray (synthesized env rows cols dt)),
     <[l := <[TEST_INPUT := VArray (synthesized env rows cols dt)]> c]> h).
Proof.
  intros -> Hdt. unfold generate_test_input. cbn [is_none].
  rewrite bool_decide_eq_true_2; [| done].
  unfold bind, lift, ret, py_assert, synthesized; cbn.
  destruct cls; cbn in Hdt |- *; try done;
    injection Hdt as <-; by rewrite deref_insert, insert_insert_eq.
Qed.

Lemma run_generate_test_input_unsupported initial_types name cls rows cols rest
    l (h : heap) :
  initial_types
  = VInitialTypes ((name, TensorType cls (Some [Some rows; Some cols])) :: rest) →
  dtype_of_class cls = None →
  generate_test_input env onnx_name initial_types VNone l h
  = (Raise (RuntimeError msg_onnx_type), h).
Proof.
  intros -> Hdt. unfold generate_test_input. cbn [is_none].
  rewrite bool_decide_eq_true_2; [| done]. by destruct cls.
Qed.

(** C4, as the code has it.  For an ONNX model converted with the [onnx]
    backend and no sample input, where the first declared input type has
    a shape [(rows, cols)]: when its class is one of the float32,
    float64, int32 and int64 tensor types, [convert] draws
    [np.random.rand(rows, cols)], casts the draw to that element type and
    enters it as the sample input; for any other class it raises the
    [RuntimeError] for an unsupported type.  Whether generated or
    supplied, the sample input gives the feature count, its number of
    columns, unless the configuration already holds a feature count. *)
Theorem onnx_input_synthesized
    (model : pymodel) (device : string) (l : loc) (h : heap) (c : dict)
    (name : string) (cls : tensor_class) (rows cols : nat)
    (rest : list (string * tensor_type)) :
  torch_installed env = true →
  h !! l = Some c →
  c !! ONNX_INITIAL_TYPES
  = Some (VInitialTypes ((name, TensorType cls (Some [Some rows; Some cols])) :: rest)) →
  (∀ dt, dtype_of_class cls = Some dt →
     let a := synthesized env rows cols dt in
     let c1 := <[TEST_INPUT := VArray a]> c in
     let c2 := if bool_decide (is_Some (c !! N_FEATURES)) then c1
               else <[N_FEATURES := VInt (Z.of_nat cols)]> c1 in
     _convert_onnxml env model onnx_name VNone device l h
     = onnx_parse_and_compile env model onnx_name device l
         (<[l := <[ONNX_INITIALIZERS := VInitializers (collect_initializers model)]> c2]> h)
     ∧ dtype a = dt ∧ shape a = [rows; cols]
     ∧ data a = map (np_cast env dt) (np_random_rand env rows cols))
  ∧ (dtype_of_class cls = None →
     _convert_onnxml env model onnx_name VNone device l h
     = (Raise (RuntimeError msg_onnx_type), h)
     ∧ failure_kind_of (RuntimeError msg_onnx_type) = Some UnsupportedDataType)
  ∧ (∀ backend a, two_dim (VArray a) = true → c !! N_FEATURES = None →
     _convert_onnxml env model backend (VArray a) device l h
     = onnx_parse_and_compile env model backend device l
         (<[l := <[ONNX_INITIALIZERS := VInitializers (collect_initializers model)]>
                  (<[N_FEATURES := VInt (Z.of_nat (columns a))]> c)]> h)).
Proof.
  intros Htorch Hl Htypes. split; [| split].
  - intros dt Hdt a c1 c2. split; [| done].
    rewrite <- (alive_insert h l c Hl), insert_insert_eq.
    unfold _convert_onnxml. rewrite Htorch. unfold py_assert.
    unfold bind at 1, ret at 1. unfold bind at 1. rewrite run_contains.
    rewrite (bool_decide_is_Some_Some _ _ Htypes).
    unfold bind at 1. rewrite (run_getitem _ _ _ _ _ Htypes).
    unfold bind at 1.
    rewrite (run_generate_test_input _ _ _ _ _ _ _ _ _ _ eq_refl Hdt).
    unfold bind at 1. rewrite run_not_in.
    rewrite lookup_insert_ne; [| done]. subst c2 c1 a.
    destruct (bool_decide (is_Some (c !! N_FEATURES))); cbn [negb].
    + unfold bind at 1, ret at 1. unfold bind. by rewrite run_setitem.
    + unfold bind at 1. unfold bind at 1, lift at 1. cbn [py_shape_1 py_shape].
      unfold synthesized at 1, np_astype at 1. cbn [shape lookup list_lookup].
      rewrite run_setitem. unfold bind. by rewrite run_setitem.
  - intros Hdt. split; [| done].
    rewrite <- (alive_insert h l c Hl).
    unfold _convert_onnxml. rewrite Htorch. unfold py_assert.
    unfold bind at 1, ret at 1. unfold bind at 1. rewrite run_contains.
    rewrite (bool_decide_is_Some_Some _ _ Htypes).
    unfold bind at 1. rewrite (run_getitem _ _ _ _ _ Htypes).
    unfold bind at 1.
    by rewrite (run_generate_test_input_unsupported _ _ _ _ _ _ _ _ eq_refl Hdt).
  - intros backend a Hdim Hfeat.
    rewrite <- (alive_insert h l c Hl), insert_insert_eq.
    unfold _convert_onnxml. rewrite Htorch. unfold py_assert.
    unfold bind at 1, ret at 1. unfold bind at 1. rewrite run_contains.
    rewrite (bool_decide_is_Some_Some _ _ Htypes).
    unfold bind at 1. rewrite (run_getitem _ _ _ _ _ Htypes).
    unfold bind at 1. unfold generate_test_input. cbn [is_none]. unfold ret at 1.
    unfold bind at 1. rewrite run_not_in.
    rewrite (bool_decide_is_Some_None _ Hfeat). cbn [negb].
    assert (py_shape_1 (VArray a) = Ok (columns a)) as Hcols.
    { cbn in Hdim. unfold py_shape_1, columns; cbn.
      destruct (shape a) as [| r [| k [| ? ?]]]; done. }
    unfold bind at 1. unfold bind at 1, lift at 1. rewrite Hcols.
    rewrite run_setitem. unfold bind. by rewrite run_setitem.
Qed.
End Families.

(** ** Sample inputs of length zero (C9) *)

Section Empty.
Context {scalar topology hb_model : Type}.
Context (env : Env scalar topology hb_model).

#[local] Abbreviation pyvalue := (pyvalue scalar).
#[local] Abbreviation pymodel := (pymodel scalar).
#[local] Abbreviation heap := (heap scalar).
#[local] Abbreviation dict := (dict scalar).



End Empty.

(** ** The theorems at work on the concrete environment *)

Lemma convert_keeps_caller_config_witness :
  (convert demo_env (Some (model_of LogisticRegression)) "torch"
     (VTuple demo_tuple) "cpu" (default_extra_config demo_env)
     (convert demo_env (Some (model_of ModelProto)) "onnx" VNone "cpu"
        (default_extra_config demo_env) demo_heap).2).2
    !! default_extra_config demo_env
  = Some ∅.
Proof.
  refine (proj2 (convert_keeps_caller_config demo_env (Some (model_of ModelProto))
                   "onnx" VNone "cpu" (default_extra_config demo_env) demo_heap
                   (default_extra_config demo_env) ∅ _) _ _ _ _ _).
  vm_compute. reflexivity.
Defined.

(** C3 fails on the Spark path.  For a frame with the single vector field
    [features] of width three, [convert] hands the compiler a
    configuration whose feature count is 1, the number of fields, next to
    a sample input of three columns. *)
Theorem spark_feature_count_mismatch :
  ∃ (d : dict Z) (a : ndarray Z),
    (convert demo_env (Some demo_spark_model) "torch" (VSpark demo_vectors)
       "cpu" 2%positive demo_heap).1 = Ok d
    ∧ d !! N_FEATURES = Some (VInt 1)
    ∧ d !! TEST_INPUT = Some (VArray a)
    ∧ shape a = [2; 3]%nat
    ∧ total_columns (VArray a) = 3%Z.
Proof.
  eexists _, _. split; [vm_compute; reflexivity |].
  repeat split; vm_compute; reflexivity.
Qed.

Lemma unregistered_backend_rejected_witness :
  convert demo_env (Some (model_of ModelProto)) "TORCHSCRIPT" VNone "cpu"
    2%positive demo_heap
  = convert demo_env (Some (model_of ModelProto)) "TorchScript" VNone "cpu"
      2%positive demo_heap
  ∧ (convert demo_env (Some (model_of LogisticRegression)) "TensorFlow"
       (VTuple demo_tuple) "cpu" 2%positive demo_heap).1
    = Raise (MissingBackend msg_backend_none).
Proof.
  split.
  - apply (proj1 (unregistered_backend_rejected demo_env (model_of ModelProto)
                    "TorchScript" VNone "cpu" 2%positive demo_heap)).
    reflexivity.
  - refine (f_equal fst
              (proj1 (proj2 (unregistered_backend_rejected demo_env
                               (model_of LogisticRegression) "TensorFlow"
                               (VTuple demo_tuple) "cpu" 2%positive demo_heap)
                        (VTuple demo_tuple)
                        (canonicalize demo_env (VTuple demo_tuple)
                           (fresh (dom demo_heap))
                           (<[fresh (dom demo_heap) := deref 2%positive demo_heap]>
                              demo_heap)).2 _ _ _))).
    + vm_compute. reflexivity.
    + vm_compute. reflexivity.
    + vm_compute. reflexivity.
Defined.

(** C1 fails when the model is [None], when the sample input is refused,
    and when the configuration cannot be copied: the name ["TensorFlow"]
    is not registered, yet the call ends on an exception that comes
    before the registry is consulted. *)
Lemma unregistered_backend_counterexample :
  backends demo_env !! lower "TensorFlow" = None
  ∧ (convert demo_env None "TensorFlow" VNone "cpu" 2%positive demo_heap).1
    = Raise (AssertionError msg_model_none)
  ∧ (convert demo_env (Some (model_of LogisticRegression)) "TensorFlow"
       (VTuple [VInt 1]) "cpu" 2%positive demo_heap).1
    = Raise (AssertionError msg_only_ndarrays)
  ∧ (convert demo_env (Some (model_of LogisticRegression)) "TensorFlow"
       VNone "cpu" 2%positive
       (demo_heap_with {[TEST_INPUT := VSpark demo_spark]})).1
    = Raise (TypeError "cannot pickle '_thread.RLock' object")
  ∧ failure_kind_of (AssertionError msg_model_none) ≠ Some UnsupportedBackend
  ∧ failure_kind_of (AssertionError msg_only_ndarrays) ≠ Some UnsupportedBackend
  ∧ failure_kind_of (TypeError "cannot pickle '_thread.RLock' object")
    ≠ Some UnsupportedBackend.
Proof. repeat split; try (vm_compute; reflexivity); discriminate. Qed.

Lemma backend_preconditions_witness :
  finish demo_env (model_of ModelProto) "TorchScript" VNone "cpu" 2%positive demo_heap
  = (Raise (RuntimeError msg_jit_needs_input), demo_heap).
Proof.
  refine (proj1 (backend_preconditions demo_env (model_of ModelProto) "TorchScript"
                   "torch.jit" VNone "cpu" 2%positive demo_heap ∅ _ _ _ _) _).
  - reflexivity.
  - vm_compute. reflexivity.
  - vm_compute. reflexivity.
  - vm_compute. reflexivity.
  - reflexivity.
Defined.

(** C5 fails for an ONNX model under the [onnx] backend: with neither
    sample input nor initial types the call is refused by the check of the
    backend, which comes first, and not by the check of the model. *)
Lemma backend_preconditions_counterexample :
  _is_onnx_model (model_of ModelProto) = true
  ∧ (convert demo_env (Some (model_of ModelProto)) "onnx" VNone "cpu"
       2%positive demo_heap).1
    = Raise (RuntimeError msg_onnx_backend_needs_input)
  ∧ failure_kind_of (RuntimeError msg_onnx_backend_needs_input)
    ≠ Some FeatureInferenceFailure.
Proof. repeat split; try (vm_compute; reflexivity); discriminate. Qed.

Lemma xgboost_feature_count_witness :
  _convert_xgboost demo_env (model_of XGBRegressor) "torch"
    (VArray (demo_array 3 4)) "cpu" 2%positive demo_heap
  = _convert_sklearn demo_env (model_of XGBRegressor) "torch"
      (VArray (demo_array 3 4)) "cpu" 2%positive
      (<[2%positive := <[N_FEATURES := VInt 4]> (deref 2%positive demo_heap)]> demo_heap).
Proof.
  refine (proj1 (proj2 (proj2 (xgboost_feature_count demo_env (model_of XGBRegressor)
                                 "torch" (VArray (demo_array 3 4)) "cpu" 2%positive
                                 demo_heap _)))
            (demo_array 3 4) _ _ _); reflexivity.
Defined.

Lemma onnx_input_synthesized_witness :
  _convert_onnxml demo_env (model_of ModelProto) onnx_name VNone "cpu" 2%positive
    (demo_heap_with demo_initial_types)
  = onnx_parse_and_compile demo_env (model_of ModelProto) onnx_name "cpu" 2%positive
      (<[2%positive :=
           <[ONNX_INITIALIZERS := VInitializers ∅]>
           (<[N_FEATURES := VInt 4]>
           (<[TEST_INPUT := VArray (NdArray float32 [1; 4]%nat [7; 7; 7; 7]%Z)]>
              demo_initial_types))]>
         (demo_heap_with demo_initial_types)).
Proof.
  refine (proj1 (proj1 (onnx_input_synthesized demo_env (model_of ModelProto) "cpu"
                          2%positive _ demo_initial_types "input" FloatTensorType
                          1 4 [] _ _ _) float32 _)).
  - reflexivity.
  - vm_compute. reflexivity.
  - vm_compute. reflexivity.
  - reflexivity.
Defined.

(** C4 fails under a backend other than [onnx]: for an ONNX model with
    declared initial types and no sample input, converted for [torch],
    nothing is generated and the feature count is asked of [None].  And
    under [onnx], a feature count the caller has put in the configuration
    stays, whatever the generated sample input. *)
Lemma onnx_input_synthesized_counterexample :
  (convert demo_env (Some (model_of ModelProto)) "torch" VNone "cpu" 2%positive
     (demo_heap_with demo_initial_types)).1
  = Raise (AttributeError "shape")
  ∧ ∃ (d : dict Z) (a : ndarray Z),
      (convert demo_env (Some (model_of ModelProto)) "onnx" VNone "cpu" 2%positive
         (demo_heap_with (<[N_FEATURES := VInt 10]> demo_initial_types))).1 = Ok d
      ∧ d !! TEST_INPUT = Some (VArray a)
      ∧ columns a = 4%nat
      ∧ d !! N_FEATURES = Some (VInt 10).
Proof.
  split; [vm_compute; reflexivity |].
  eexists _, _. split; [vm_compute; reflexivity |].
  repeat split; vm_compute; reflexivity.
Qed.



(** ** Further properties of [convert.py] *)

Section Preamble.
Context {scalar topology hb_model : Type}.
Context (env : Env scalar topology hb_model).

#[local] Abbreviation pyvalue := (pyvalue scalar).
#[local] Abbreviation pymodel := (pymodel scalar).
#[local] Abbreviation heap := (heap scalar).
#[local] Abbreviation dict := (dict scalar).

Lemma with_defaults_filled (cpus : pyvalue) (c : dict) :
  with_defaults cpus c !! CONTAINER = Some (default (VBool true) (c !! CONTAINER))
  ∧ with_defaults cpus c !! N_THREADS = Some (default cpus (c !! N_THREADS)).
Proof.
  unfold with_defaults.
  destruct (c !! CONTAINER) as [v|] eqn:Hc;
    destruct (c !! N_THREADS) as [w|] eqn:Ht; cbn.
  all: rewrite ?lookup_insert_ne by done; rewrite ?Ht, ?Hc; cbn.
  all: rewrite ?lookup_insert_eq, ?lookup_insert_ne by done.
  all: rewrite ?Ht, ?Hc, ?lookup_insert_eq; done.
Qed.

(** X1.  The defaults of lines 270-275 fill in only what is missing: after
    them the container switch is the caller's value when there is one and
    [True] otherwise, the thread hint is the caller's value when there is
    one and the physical core count otherwise, and every other entry is
    as before.  Setting the defaults a second time changes nothing. *)
Theorem defaults_fill_only_missing (l : loc) (c : dict) (h : heap) :
  ∃ c' : dict,
    set_defaults env l (<[l := c]> h) = (Ok tt, <[l := c']> h)
    ∧ c' !! CONTAINER = Some (default (VBool true) (c !! CONTAINER))
    ∧ c' !! N_THREADS = Some (default (cpu_count env) (c !! N_THREADS))
    ∧ (∀ k, k ≠ CONTAINER → k ≠ N_THREADS → c' !! k = c !! k)
    ∧ set_defaults env l (<[l := c']> h) = (Ok tt, <[l := c']> h).
Proof.
  exists (with_defaults (cpu_count env) c).
  destruct (with_defaults_filled (cpu_count env) c) as [Hcontainer Hthreads].
  split; [apply run_set_defaults |].
  split; [exact Hcontainer |]. split; [exact Hthreads |].
  split; [intros k H1 H2; by apply with_defaults_lookup |].
  rewrite run_set_defaults. do 2 f_equal.
  unfold with_defaults at 1.
  rewrite (bool_decide_is_Some_Some _ _ Hcontainer). cbv iota.
  rewrite (bool_decide_is_Some_Some _ _ Hthreads). reflexivity.
Qed.

Lemma run_fix_test_input_configured test_input test_input' l (c : dict) (h : heap) v :
  c !! TEST_INPUT = Some v →
  fix_test_input env test_input l (<[l := c]> h)
  = fix_test_input env test_input' l (<[l := c]> h).
Proof.
  intros Hc. unfold fix_test_input, bind. rewrite !run_contains.
  rewrite (bool_decide_is_Some_Some _ _ Hc). reflexivity.
Qed.

(** X2.  A sample input the caller has put in the configuration takes
    the place of the [test_input] argument: the argument is neither
    measured nor stored nor passed on, so the call does the same whatever
    it is. *)
Theorem configured_input_overrides_argument
    (model : option pymodel) (backend : string) (test_input test_input' : pyvalue)
    (device : string) (extra_config : loc) (h : heap) (v : pyvalue) :
  deref extra_config h !! TEST_INPUT = Some v →
  convert env model backend test_input device extra_config h
  = convert env model backend test_input' device extra_config h.
Proof.
  intros Hc. destruct model as [model|]; [| done].
  destruct (deepcopy_refusal env (deref extra_config h)) as [e|] eqn:Hcopy;
    [by rewrite !(convert_uncopyable env _ _ _ _ _ _ e) |].
  rewrite !convert_stages by done. unfold canonicalize, bind.
  rewrite !(run_add_test_input_present _ _ _ _ _ _ Hc), !run_set_defaults.
  rewrite (run_fix_test_input_configured test_input test_input' _ _ _ v); [done |].
  by rewrite with_defaults_lookup.
Qed.


(** When [_supported_backend_check_config] raises, on the name it is
    given. *)
Lemma run_check_config_exact
    (model : pymodel) (backend : string) (l : loc) (c : dict) (h : heap) :
  torch_installed env = true →
  let refused :=
    c !! TEST_INPUT = None
    ∧ (backend = torch_jit_name
       ∨ (c !! ONNX_INITIAL_TYPES = None
          ∧ (backend = onnx_name ∨ _is_onnx_model model = true))) in
  (refused →
   ∃ msg, _supported_backend_check_config env model backend l (<[l := c]> h)
          = (Raise (RuntimeError msg), <[l := c]> h))
  ∧ (¬ refused →
     _supported_backend_check_config env model backend l (<[l := c]> h)
     = (Ok tt, <[l := c]> h)).
Proof.
  intros Htorch refused. rewrite (run_check_config _ _ _ _ _ _ Htorch). cbv zeta.
  subst refused. split.
  - intros [Hin Hcase]. rewrite (bool_decide_is_Some_None _ Hin). cbn [negb].
    rewrite !andb_true_r.
    destruct (bool_decide (backend = torch_jit_name)) eqn:Hj; [by eexists |].
    apply bool_decide_eq_false in Hj.
    destruct Hcase as [? | [Ht Hcase]]; [done |].
    rewrite (bool_decide_is_Some_None _ Ht). cbn [negb]. rewrite !andb_true_r.
    destruct (bool_decide (backend = onnx_name)) eqn:Ho; [by eexists |].
    apply bool_decide_eq_false in Ho.
    destruct Hcase as [? | ->]; [done | by eexists].
  - intros Hnot.
    destruct (c !! TEST_INPUT) as [v|] eqn:Hin.
    + rewrite (bool_decide_is_Some_Some (Some v) v eq_refl). cbn [negb].
      by rewrite !andb_false_r.
    + rewrite (bool_decide_is_Some_None None eq_refl). cbn [negb].
      rewrite !andb_true_r.
      destruct (bool_decide (backend = torch_jit_name)) eqn:Hj.
      { apply bool_decide_eq_true in Hj. exfalso. apply Hnot. by split; [| left]. }
      destruct (c !! ONNX_INITIAL_TYPES) as [t|] eqn:Ht.
      * rewrite (bool_decide_is_Some_Some (Some t) t eq_refl). cbn [negb].
        by rewrite !andb_false_r.
      * rewrite (bool_decide_is_Some_None None eq_refl). cbn [negb].
        rewrite !andb_true_r.
        destruct (bool_decide (backend = onnx_name)) eqn:Ho.
        { apply bool_decide_eq_true in Ho. exfalso. apply Hnot.
          split; [done |]. right. split; [done |]. by left. }
        destruct (_is_onnx_model model) eqn:Hm; [| done].
        exfalso. apply Hnot. split; [done |]. right. split; [done |]. by right.
Qed.

(** X3.  With torch installed and a backend name that the registry
    resolves, the configuration check of [convert] refuses exactly when
    the configuration holds no sample input and either the resolved
    backend is the registry's [torch.jit] name, or there are no initial
    types either and the resolved backend is the registry's [onnx] name or
    the model is an ONNX model.  A refusal is a [RuntimeError] and leaves
    the store as it is; otherwise the call goes on to dispatch the model
    under the resolved backend.  A configuration with a sample input
    passes for every backend and every model. *)
Theorem config_check_exact
    (model : pymodel) (name backend : string) (test_input : pyvalue)
    (device : string) (l : loc) (c : dict) (h : heap) :
  torch_installed env = true →
  backends env !! lower name = Some backend →
  let refused :=
    c !! TEST_INPUT = None
    ∧ (backend = torch_jit_name
       ∨ (c !! ONNX_INITIAL_TYPES = None
          ∧ (backend = onnx_name ∨ _is_onnx_model model = true))) in
  (refused →
   ∃ msg, finish env model name test_input device l (<[l := c]> h)
          = (Raise (RuntimeError msg), <[l := c]> h))
  ∧ (¬ refused →
     finish env model name test_input device l (<[l := c]> h)
     = dispatch env model backend test_input device l (<[l := c]> h)).
Proof.
  intros Htorch Hb refused.
  rewrite (run_finish_registered env model name backend test_input device l _ Hb).
  destruct (run_check_config_exact model backend l c h Htorch) as [Hyes Hno].
  unfold bind. split.
  - intros Hrefused. destruct (Hyes Hrefused) as [msg ->]. by exists msg.
  - intros Hnot. by rewrite (Hno Hnot).
Qed.
End Preamble.

Section OnnxModels.
Context {scalar topology hb_model : Type}.
Context (env : Env scalar topology hb_model).

#[local] Abbreviation pyvalue := (pyvalue scalar).
#[local] Abbreviation pymodel := (pymodel scalar).
#[local] Abbreviation heap := (heap scalar).
#[local] Abbreviation dict := (dict scalar).

(** [_convert_onnxml] up to the generation of the sample input, on a
    configuration with initial types. *)
Lemma run_convert_onnxml_declared (model : pymodel) backend test_input device l
    (c : dict) (h : heap) tys :
  torch_installed env = true →
  c !! ONNX_INITIAL_TYPES = Some tys →
  _convert_onnxml env model backend test_input device l (<[l := c]> h)
  = (test_input ← generate_test_input env backend tys test_input l;
     no_features ← not_in l N_FEATURES;
     (if no_features then
        cols ← lift (py_shape_1 test_input);
        setitem l N_FEATURES (VInt (Z.of_nat cols))
      else ret tt);;
     setitem l ONNX_INITIALIZERS (VInitializers (collect_initializers model));;
     onnx_parse_and_compile env model backend device l) (<[l := c]> h).
Proof.
  intros Htorch Htypes. unfold _convert_onnxml. rewrite Htorch. unfold py_assert.
  unfold bind at 1, ret at 1. unfold bind at 1. rewrite run_contains.
  rewrite (bool_decide_is_Some_Some _ _ Htypes).
  unfold bind at 1. by rewrite (run_getitem _ _ _ _ _ Htypes).
Qed.

(** X4.  With the [onnx] backend and no sample input, the first declared
    input type must carry a shape of two integers: a missing shape fails
    the first assertion, a shape of another length the second, and a
    [None] dimension makes [np.random.rand] raise [TypeError].  Each is
    decided before the class of the type is looked at, and nothing is
    written. *)
Theorem onnx_declared_shape_refused
    (model : pymodel) (device : string) (l : loc) (h : heap) (c : dict)
    (name : string) (cls : tensor_class) (sh : option (list (option nat)))
    (rest : list (string * tensor_type)) :
  torch_installed env = true →
  h !! l = Some c →
  c !! ONNX_INITIAL_TYPES = Some (VInitialTypes ((name, TensorType cls sh) :: rest)) →
  (sh = None →
   _convert_onnxml env model onnx_name VNone device l h
   = (Raise (AssertionError msg_onnx_no_shape), h))
  ∧ (∀ dims, sh = Some dims → length dims ≠ 2%nat →
     _convert_onnxml env model onnx_name VNone device l h
     = (Raise (AssertionError msg_onnx_rank), h))
  ∧ (∀ d0 d1, sh = Some [d0; d1] → d0 = None ∨ d1 = None →
     _convert_onnxml env model onnx_name VNone device l h
     = (Raise (TypeError "an integer is required"), h))
  ∧ failure_kind_of (AssertionError msg_onnx_rank) = Some UnsupportedInputRank.
Proof.
  intros Htorch Hl Htypes.
  assert (∀ r, generate_test_input env onnx_name
                 (VInitialTypes ((name, TensorType cls sh) :: rest)) VNone l
                 (<[l := c]> h) = (Raise r, <[l := c]> h) →
               _convert_onnxml env model onnx_name VNone device l h = (Raise r, h))
    as Hraise.
  { intros r Hgen. rewrite <- (alive_insert h l c Hl) at 1.
    rewrite (run_convert_onnxml_declared _ _ _ _ _ _ _ _ Htorch Htypes).
    unfold bind at 1. rewrite Hgen. by rewrite (alive_insert h l c Hl). }
  split; [| split; [| split; [| done]]].
  - intros ->. apply Hraise. unfold generate_test_input. cbn [is_none].
    by rewrite bool_decide_eq_true_2.
  - intros dims -> Hlen. apply Hraise. unfold generate_test_input. cbn [is_none].
    rewrite bool_decide_eq_true_2 by done.
    unfold bind, lift, py_assert, raise; cbn.
    by rewrite (proj2 (Nat.eqb_neq _ _) Hlen).
  - intros d0 d1 -> Hnone. apply Hraise. unfold generate_test_input. cbn [is_none].
    rewrite bool_decide_eq_true_2 by done.
    unfold bind, lift, py_assert, raise, ret; cbn.
    destruct Hnone as [-> | ->]; [done |]. by destruct d0.
Qed.

(** X11.  When a sample input is supplied and the configuration already
    holds a feature count (the caller's, or the one the tuple and frame
    paths enter), [_convert_onnxml] does not look at the sample input at
    all: it only adds the initializers and goes on to parse and compile. *)
Theorem onnx_feature_count_kept
    (model : pymodel) (backend : string) (test_input : pyvalue)
    (device : string) (l : loc) (h : heap) (c : dict) (n : pyvalue) :
  torch_installed env = true →
  h !! l = Some c →
  is_none test_input = false →
  c !! N_FEATURES = Some n →
  _convert_onnxml env model backend test_input device l h
  = onnx_parse_and_compile env model backend device l
      (<[l := <[ONNX_INITIALIZERS := VInitializers (collect_initializers model)]> c]> h).
Proof.
  intros Htorch Hl Hti Hn.
  rewrite <- (alive_insert h l c Hl), insert_insert_eq.
  unfold _convert_onnxml. rewrite Htorch. unfold py_assert.
  unfold bind at 1, ret at 1. unfold bind at 1. rewrite run_contains.
  assert (∀ tys, generate_test_input env backend tys test_input l (<[l := c]> h)
                 = (Ok test_input, <[l := c]> h)) as Hgen.
  { intros tys. unfold generate_test_input. by rewrite Hti. }
  destruct (c !! ONNX_INITIAL_TYPES) as [tys|] eqn:Htys.
  - rewrite (bool_decide_is_Some_Some (Some tys) tys eq_refl).
    unfold bind at 1. rewrite (run_getitem _ _ _ _ _ Htys).
    unfold bind at 1. rewrite Hgen. unfold bind at 1. rewrite run_not_in.
    rewrite (bool_decide_is_Some_Some _ _ Hn). cbn [negb].
    unfold bind at 1, ret at 1. unfold bind. by rewrite run_setitem.
  - rewrite (bool_decide_is_Some_None None eq_refl).
    unfold bind at 1, ret at 1. unfold bind at 1. rewrite Hgen.
    unfold bind at 1. rewrite run_not_in.
    rewrite (bool_decide_is_Some_Some _ _ Hn). cbn [negb].
    unfold bind at 1, ret at 1. unfold bind. by rewrite run_setitem.
Qed.

(** X12.  When a sample input is supplied and the configuration holds no
    feature count, the count is read from [test_input.shape[1]]: a sample
    input without that (a list or tuple left as it is, an array of one
    dimension) makes [_convert_onnxml] raise what the read raises, and
    nothing is written. *)
Theorem onnx_input_without_columns
    (model : pymodel) (backend : string) (test_input : pyvalue)
    (device : string) (l : loc) (h : heap) (c : dict) (e : exn) :
  torch_installed env = true →
  h !! l = Some c →
  is_none test_input = false →
  c !! N_FEATURES = None →
  py_shape_1 test_input = Raise e →
  _convert_onnxml env model backend test_input device l h = (Raise e, h).
Proof.
  intros Htorch Hl Hti Hn Hshape.
  rewrite <- (alive_insert h l c Hl).
  unfold _convert_onnxml. rewrite Htorch. unfold py_assert.
  unfold bind at 1, ret at 1. unfold bind at 1. rewrite run_contains.
  assert (∀ tys, generate_test_input env backend tys test_input l (<[l := c]> h)
                 = (Ok test_input, <[l := c]> h)) as Hgen.
  { intros tys. unfold generate_test_input. by rewrite Hti. }
  destruct (c !! ONNX_INITIAL_TYPES) as [tys|] eqn:Htys.
  - rewrite (bool_decide_is_Some_Some (Some tys) tys eq_refl).
    unfold bind at 1. rewrite (run_getitem _ _ _ _ _ Htys).
    unfold bind at 1. rewrite Hgen. unfold bind at 1. rewrite run_not_in.
    rewrite (bool_decide_is_Some_None _ Hn). cbn [negb].
    unfold bind, lift. by rewrite Hshape.
  - rewrite (bool_decide_is_Some_None None eq_refl).
    unfold bind at 1, ret at 1. unfold bind at 1. rewrite Hgen.
    unfold bind at 1. rewrite run_not_in.
    rewrite (bool_decide_is_Some_None _ Hn). cbn [negb].
    unfold bind, lift. by rewrite Hshape.
Qed.

(** *** The initializers *)

#[local] Abbreviation collect :=
  (foldl (λ (m : gmap string (tensor_proto scalar)) in_, <[init_name in_ := in_]> m)).

Lemma collect_other (inits : list (tensor_proto scalar)) acc name :
  name ∉ map init_name inits → collect acc inits !! name = acc !! name.
Proof.
  revert acc. induction inits as [| x inits IH]; intros acc Hnot; [done |].
  cbn in Hnot |- *. apply not_elem_of_cons in Hnot as [Hne Hnot].
  rewrite (IH _ Hnot). by rewrite lookup_insert_ne.
Qed.

Lemma collect_origin (inits : list (tensor_proto scalar)) acc name t :
  collect acc inits !! name = Some t →
  (t ∈ inits ∧ init_name t = name) ∨ acc !! name = Some t.
Proof.
  revert acc. induction inits as [| x inits IH]; intros acc Hlook; [by right |].
  cbn in Hlook. apply IH in Hlook as [[Hin Hname] | Hacc].
  - left. split; [by right | done].
  - destruct (decide (init_name x = name)) as [Heq | Hne].
    + rewrite Heq, lookup_insert_eq in Hacc. injection Hacc as <-.
      left. split; [by left | done].
    + rewrite lookup_insert_ne in Hacc by done. by right.
Qed.

Lemma collect_unique (inits : list (tensor_proto scalar)) acc t :
  NoDup (map init_name inits) → t ∈ inits →
  collect acc inits !! init_name t = Some t.
Proof.
  revert acc. induction inits as [| x inits IH]; intros acc Hnd Hin.
  - by apply elem_of_nil in Hin.
  - cbn in Hnd |- *. apply NoDup_cons in Hnd as [Hfirst Hnd].
    apply elem_of_cons in Hin as [-> | Hin]; [| by apply IH].
    rewrite (collect_other _ _ _ Hfirst). apply lookup_insert_eq.
Qed.

(** X5.  The initializers [_convert_onnxml] enters are keyed by name: an
    absent initializer list gives the empty dict; every entry is an
    initializer of the graph filed under its own name; and when the names
    are pairwise distinct every initializer of the graph is found under
    its name. *)
Theorem initializers_by_name (model : pymodel) :
  (graph_initializer model = None → collect_initializers model = ∅)
  ∧ ∀ inits, graph_initializer model = Some inits →
      (∀ name t, collect_initializers model !! name = Some t →
                 t ∈ inits ∧ init_name t = name)
      ∧ (NoDup (map init_name inits) →
         ∀ t, t ∈ inits → collect_initializers model !! init_name t = Some t).
Proof.
  unfold collect_initializers. split; [by intros -> |].
  intros inits ->. split.
  - intros name t Hlook. by apply collect_origin in Hlook as [? | ?].
  - intros Hnd t Hin. by apply collect_unique.
Qed.
End OnnxModels.

Section Canonicalization.
Context {scalar topology hb_model : Type}.
Context (env : Env scalar topology hb_model).

#[local] Abbreviation pyvalue := (pyvalue scalar).
#[local] Abbreviation pymodel := (pymodel scalar).
#[local] Abbreviation heap := (heap scalar).
#[local] Abbreviation dict := (dict scalar).

(** The start of [fix_test_input] on a configuration with a sample input. *)
Lemma run_fix_test_input_head test_input l (c : dict) (h : heap) v :
  c !! TEST_INPUT = Some v →
  fix_test_input env test_input l (<[l := c]> h)
  = ((match v with
      | VList l0 => a ← lift (np_array env l0); setitem l TEST_INPUT (VArray a)
      | VTuple inputs => fix_tuple inputs l
      | VPandas df => if is_pandas_dataframe env v then fix_pandas env df l else ret tt
      | VSpark df => if is_spark_dataframe env v then fix_spark env df l else ret tt
      | _ => ret tt
      end);; getitem l TEST_INPUT) (<[l := c]> h).
Proof.
  intros Hc. unfold fix_test_input. unfold bind at 1. rewrite run_contains.
  rewrite (bool_decide_is_Some_Some _ _ Hc).
  unfold bind at 1. by rewrite (run_getitem _ _ _ _ _ Hc).
Qed.

Lemma run_fix_test_input_tuple test_input l (c : dict) (h : heap) inputs :
  c !! TEST_INPUT = Some (VTuple inputs) →
  forallb two_dim inputs = true →
  fix_test_input env test_input l (<[l := c]> h)
  = (Ok (VTuple inputs),
     <[l := <[N_INPUTS := VInt (Z.of_nat (length inputs))]>
              (<[N_FEATURES := VInt (total_columns (VTuple inputs))]> c)]> h).
Proof.
  intros Hc Hall. rewrite (run_fix_test_input_head _ _ _ _ _ Hc).
  unfold bind. rewrite (run_fix_tuple_ok _ _ _ _ Hall).
  erewrite run_getitem; [done |]. by rewrite !lookup_insert_ne.
Qed.

Lemma run_fix_test_input_through test_input l (c : dict) (h : heap) v :
  c !! TEST_INPUT = Some v →
  match v with
  | VList _ | VTuple _ => False
  | VPandas _ => pandas_installed env = false
  | VSpark _ => sparkml_installed env = false
  | _ => True
  end →
  fix_test_input env test_input l (<[l := c]> h) = (Ok v, <[l := c]> h).
Proof.
  intros Hc Hv. rewrite (run_fix_test_input_head _ _ _ _ _ Hc).
  unfold is_pandas_dataframe, is_spark_dataframe.
  destruct v; try done; rewrite ?Hv; cbn [andb];
    unfold bind, ret; by rewrite (run_getitem _ _ _ _ _ Hc).
Qed.

(** The arrays of the pandas path have one column each. *)
Lemma reshape_column_two_dim (a : ndarray scalar) :
  two_dim (VArray (reshape_column a)) = true
  ∧ value_columns (VArray (reshape_column a)) = 1%nat.
Proof. done. Qed.

Lemma single_columns_total (splits : list (ndarray scalar)) :
  Forall (λ a, value_columns (VArray a) = 1%nat) splits →
  total_columns (VTuple (map VArray splits)) = Z.of_nat (length splits).
Proof.
  unfold total_columns. cbn [arrays_of].
  induction 1 as [| a splits Ha _ IH]; [done |].
  cbn [map foldr length]. rewrite IH, Ha. lia.
Qed.

(** X7.  Fixing the sample input is idempotent off the Spark path: when
    the configuration holds a list, a tuple, an array, a pandas frame or
    any other value that is no Spark frame, and the fix returns, then
    fixing again returns the same sample input and leaves the store as the
    first fix left it. *)
Theorem canonicalization_idempotent
    (test_input test_input' : pyvalue) (l : loc) (h h' : heap) (c : dict)
    (v0 v : pyvalue) :
  h !! l = Some c →
  c !! TEST_INPUT = Some v0 →
  (∀ df, v0 ≠ VSpark df) →
  fix_test_input env test_input l h = (Ok v, h') →
  fix_test_input env test_input' l h' = (Ok v, h').
Proof.
  intros Hl Hc Hspark. rewrite <- (alive_insert h l c Hl).
  destruct v0 as [| b | z | s | l0 | inputs | a | df | df | its | inits | ty];
    try (rewrite (run_fix_test_input_through _ _ _ _ _ Hc) by done;
         intros [= <- <-];
         by rewrite (run_fix_test_input_through _ _ _ _ _ Hc)).
  - (* a list becomes an array, an array stays *)
    rewrite (run_fix_test_input_head _ _ _ _ _ Hc). unfold bind, lift.
    destruct (np_array env l0) as [a|e]; [| done].
    rewrite run_setitem. erewrite run_getitem by apply lookup_insert_eq.
    intros [= <- <-].
    by rewrite (run_fix_test_input_through _ _ _ _ (VArray a))
      by (done || apply lookup_insert_eq).
  - (* a tuple is measured again, with the same result *)
    destruct (forallb two_dim inputs) eqn:Hall.
    + rewrite (run_fix_test_input_tuple _ _ _ _ _ Hc Hall).
      intros [= <- <-].
      rewrite (run_fix_test_input_tuple _ _ _ _ inputs) by
        (done || by rewrite !lookup_insert_ne).
      do 2 f_equal. rewrite (insert_insert_ne _ N_FEATURES N_INPUTS) by done.
      by rewrite !insert_insert_eq.
    + rewrite (run_fix_test_input_head _ _ _ _ _ Hc). unfold bind.
      destruct (run_fix_tuple_reject inputs l (<[l := c]> h) Hall) as [msg ->].
      done.
  - (* a frame becomes a tuple of single columns, or one array *)
    destruct (pandas_installed env) eqn:Hpd.
    2: { rewrite (run_fix_test_input_through _ _ _ _ _ Hc) by done.
         intros [= <- <-].
         by rewrite (run_fix_test_input_through _ _ _ _ _ Hc). }
    rewrite (run_fix_test_input_head _ _ _ _ _ Hc).
    unfold is_pandas_dataframe. rewrite Hpd. cbn [andb].
    unfold fix_pandas, bind, lift. rewrite run_setitem.
    erewrite run_getitem by apply lookup_insert_eq. rewrite run_setitem.
    remember (map (λ sel, reshape_column (pd_to_numpy env (pd_rows df) sel))
                (map (pd_getitem df) (map col_name (pd_cols df)))) as splits
      eqn:Hdef.
    assert (length splits = length (pd_cols df)) as Hlen
      by (subst splits; by rewrite !length_map).
    assert (Forall (λ a, two_dim (VArray a) = true
                         ∧ value_columns (VArray a) = 1%nat) splits) as Hsplits.
    { subst splits. apply Forall_forall. intros a Ha.
      apply list_elem_of_fmap in Ha as [sel [-> _]]. apply reshape_column_two_dim. }
    clear Hdef. destruct splits as [| a1 [| a2 rest]]; [done | |].
    + cbn [pack_splits length Nat.ltb Nat.leb]. rewrite !run_setitem.
      erewrite run_getitem by (rewrite lookup_insert_ne by done; apply lookup_insert_eq).
      intros [= <- <-].
      by rewrite (run_fix_test_input_through _ _ _ _ (VArray a1))
        by (done || (rewrite lookup_insert_ne by done; apply lookup_insert_eq)).
    + set (splits := a1 :: a2 :: rest) in *.
      assert (pack_splits splits = Ok (VTuple (map VArray splits))) as -> by done.
      rewrite !run_setitem.
      erewrite run_getitem by (rewrite lookup_insert_ne by done; apply lookup_insert_eq).
      intros [= <- <-].
      rewrite (run_fix_test_input_tuple _ _ _ _ (map VArray splits)).
      2: { rewrite lookup_insert_ne by done. apply lookup_insert_eq. }
      2: { apply forallb_forall. intros x Hx. apply in_map_iff in Hx as [a [<- Ha]].
           apply list_elem_of_In in Ha.
           by apply (proj1 (Forall_forall _ _) Hsplits a). }
      do 2 f_equal.
      rewrite single_columns_total
        by (eapply Forall_impl; [exact Hsplits | by intros ? [? ?]]).
      rewrite length_map, Hlen.
      apply map_eq. intros k. rewrite !lookup_insert.
      repeat case_decide; simplify_eq; done.
  - by destruct (Hspark df).
Qed.

(** *** Spark frames with a field of an unrecognized type *)

Lemma comprehension_raise {A B} (f : A → res B) (pre post : list A) x ys e :
  comprehension f pre = Ok ys → f x = Raise e →
  comprehension f (pre ++ x :: post)%list = Raise e.
Proof.
  revert ys. induction pre as [| y pre IH]; intros ys; cbn.
  - intros _ ->. done.
  - destruct (f y); [| done]. destruct (comprehension f pre) eqn:Hpre; [| done].
    intros _ Hx. by rewrite (IH _ eq_refl Hx).
Qed.

(** X6.  On the Spark path a field whose type is none of those the loop
    knows ends the canonicalization with [ValueError], once the fields
    before it have been laid out.  By then the input count and the feature
    count are written; the sample input and the input names are not. *)
Theorem spark_unrecognized_type
    (test_input : pyvalue) (l : loc) (h : heap) (c : dict)
    (df : spark_frame scalar) row_dict (pre post : list spark_field)
    (field : spark_field) layouts cell tyname :
  sparkml_installed env = true →
  h !! l = Some c →
  c !! TEST_INPUT = Some (VSpark df) →
  first_row_dict df = Ok row_dict →
  sp_fields df = (pre ++ field :: post)%list →
  comprehension (spark_field_layout row_dict) pre = Ok layouts →
  row_dict !! field_name field = Some cell →
  field_dataType field = OtherSparkType tyname →
  let n := VInt (Z.of_nat (length (sp_fields df))) in
  fix_test_input env test_input l h
  = (Raise (ValueError msg_spark_dtype),
     <[l := <[N_FEATURES := n]> (<[N_INPUTS := n]> c)]> h)
  ∧ failure_kind_of (ValueError msg_spark_dtype) = Some UnsupportedDataType.
Proof.
  intros Hsp Hl Hc Hrow Hfields Hpre Hcell Hty n. split; [| done].
  rewrite <- (alive_insert h l c Hl), insert_insert_eq.
  rewrite (run_fix_test_input_head _ _ _ _ _ Hc).
  unfold is_spark_dataframe. rewrite Hsp. cbn [andb].
  unfold fix_spark, bind, lift. rewrite length_map, run_setitem.
  erewrite run_getitem by apply lookup_insert_eq.
  rewrite run_setitem, Hrow, Hfields.
  erewrite (comprehension_raise (spark_split env _ row_dict) pre post field).
  - subst n. by rewrite Hfields.
  - by apply spark_splits.
  - unfold spark_split, spark_field_layout. by rewrite Hcell, Hty.
Qed.
End Canonicalization.

Section EndToEnd.
Context {scalar topology hb_model : Type}.
Context (env : Env scalar topology hb_model).

#[local] Abbreviation pyvalue := (pyvalue scalar).
#[local] Abbreviation pymodel := (pymodel scalar).
#[local] Abbreviation heap := (heap scalar).
#[local] Abbreviation dict := (dict scalar).




End EndToEnd.

Section WrittenKeys.
Context {scalar topology hb_model : Type}.
Context (env : Env scalar topology hb_model).

#[local] Abbreviation pyvalue := (pyvalue scalar).
#[local] Abbreviation pymodel := (pymodel scalar).
#[local] Abbreviation heap := (heap scalar).
#[local] Abbreviation dict := (dict scalar).

Lemma writes_keys_ret {A} K l (a : A) : writes_keys (scalar:=scalar) K l (ret a).
Proof. intros c h. by exists c. Qed.

Lemma writes_keys_raise {A} K l e : writes_keys (scalar:=scalar) (A:=A) K l (raise e).
Proof. intros c h. by exists c. Qed.

Lemma writes_keys_lift {A} K l (r : res A) : writes_keys (scalar:=scalar) K l (lift r).
Proof. intros c h. by exists c. Qed.

Lemma writes_keys_assert K l b msg : writes_keys (scalar:=scalar) K l (py_assert b msg).
Proof. destruct b; [apply writes_keys_ret | apply writes_keys_raise]. Qed.

Lemma writes_keys_not_in K l k : writes_keys (scalar:=scalar) K l (not_in l k).
Proof. intros c h. exists c. by rewrite run_not_in. Qed.

Lemma writes_keys_contains K l k : writes_keys (scalar:=scalar) K l (contains l k).
Proof. intros c h. exists c. by rewrite run_contains. Qed.

Lemma writes_keys_getitem K l k : writes_keys (scalar:=scalar) K l (getitem l k).
Proof.
  intros c h. exists c. unfold getitem. rewrite deref_insert.
  by destruct (c !! k).
Qed.

Lemma writes_keys_setitem (K : list key) l k (v : pyvalue) :
  k ∈ K → writes_keys K l (setitem l k v).
Proof.
  intros Hk c h. exists (<[k := v]> c). rewrite run_setitem. split; [done |].
  intros k' Hk'. rewrite lookup_insert_ne; [done |]. by intros ->.
Qed.

Lemma writes_keys_bind {A B} K l (m : M scalar A) (f : A → M scalar B) :
  writes_keys K l m → (∀ a, writes_keys K l (f a)) → writes_keys K l (bind m f).
Proof.
  intros Hm Hf c h. destruct (Hm c h) as (c1 & Hrun & Hsame).
  unfold bind. destruct (m (<[l := c]> h)) as [[a|e] h1]; cbn in Hrun; subst h1.
  - destruct (Hf a c1 h) as (c2 & Hrun2 & Hsame2). exists c2. split; [done |].
    intros k Hk. by rewrite Hsame2, Hsame.
  - by exists c1.
Qed.

Lemma writes_keys_if {A} K l (b : bool) (m1 m2 : M scalar A) :
  writes_keys K l m1 → writes_keys K l m2 → writes_keys K l (if b then m1 else m2).
Proof. by destruct b. Qed.

(** X13.  Whatever the sample input, the part of [convert] before the
    backend is resolved (lines 262-339) writes to six keys of the private
    dict only: the sample input, the two defaults, the feature count, the
    input count and the input names.  Every other entry the caller passed
    (initial types, settings of the operator converters) is in the dict
    exactly as passed, whether the part returns or raises. *)
Theorem canonicalize_writes_six_keys
    (test_input : pyvalue) (l : loc) (c : dict) (h : heap) :
  ∃ c' : dict,
    (canonicalize env test_input l (<[l := c]> h)).2 = <[l := c']> h
    ∧ ∀ k, k ∉ [TEST_INPUT; CONTAINER; N_THREADS; N_FEATURES; N_INPUTS; INPUT_NAMES] →
           c' !! k = c !! k.
Proof.
  revert c h. change (writes_keys
    [TEST_INPUT; CONTAINER; N_THREADS; N_FEATURES; N_INPUTS; INPUT_NAMES] l
    (canonicalize env test_input l)).
  unfold canonicalize, add_test_input, set_defaults, fix_test_input,
    fix_tuple, fix_pandas, fix_spark.
  repeat first
    [ apply writes_keys_ret | apply writes_keys_raise | apply writes_keys_lift
    | apply writes_keys_assert | apply writes_keys_not_in
    | apply writes_keys_contains | apply writes_keys_getitem
    | (apply writes_keys_setitem; set_solver)
    | apply writes_keys_bind | apply writes_keys_if
    | match goal with
      | |- writes_keys _ _ (match ?x with _ => _ end) => destruct x
      | |- ∀ _, writes_keys _ _ _ => intro
      end ].
Qed.
End WrittenKeys.

Section SparkFrames.
Context {scalar topology hb_model : Type}.
Context (env : Env scalar topology hb_model).

End SparkFrames.

(** ** The further properties at work on the concrete environment *)

Lemma configured_input_overrides_argument_witness :
  convert demo_env (Some (model_of LogisticRegression)) "torch" (VInt 7) "cpu"
    2%positive (demo_heap_with {[TEST_INPUT := VArray (demo_array 3 4)]})
  = convert demo_env (Some (model_of LogisticRegression)) "torch" VNone "cpu"
      2%positive (demo_heap_with {[TEST_INPUT := VArray (demo_array 3 4)]}).
Proof.
  apply (configured_input_overrides_argument demo_env _ _ _ _ _ _ _
           (VArray (demo_array 3 4))).
  vm_compute. reflexivity.
Defined.


Lemma config_check_exact_witness :
  ∃ msg,
    finish demo_env (model_of ModelProto) "Torch" VNone "cpu"
      2%positive (<[2%positive := ∅]> demo_heap)
    = (Raise (RuntimeError msg), <[2%positive := ∅]> demo_heap).
Proof.
  refine (proj1 (config_check_exact demo_env (model_of ModelProto) "Torch" "torch"
                   VNone "cpu" 2%positive ∅ demo_heap _ _) _).
  - reflexivity.
  - vm_compute. reflexivity.
  - split; [reflexivity |]. right. split; [reflexivity |]. right. reflexivity.
Defined.

Lemma onnx_declared_shape_refused_witness :
  _convert_onnxml demo_env (model_of ModelProto) onnx_name VNone "cpu" 2%positive
    (demo_heap_with demo_rank3_types)
  = (Raise (AssertionError msg_onnx_rank), demo_heap_with demo_rank3_types).
Proof.
  refine (proj1 (proj2 (onnx_declared_shape_refused demo_env (model_of ModelProto)
                          "cpu" 2%positive _ demo_rank3_types "input"
                          FloatTensorType _ [] _ _ _)) _ eq_refl _).
  - reflexivity.
  - vm_compute. reflexivity.
  - vm_compute. reflexivity.
  - cbn. lia.
Defined.

Lemma onnx_feature_count_kept_witness :
  _convert_onnxml demo_env demo_onnx_model "torch" (VTuple demo_tuple) "cpu"
    2%positive (demo_heap_with {[N_FEATURES := VInt 6]})
  = onnx_parse_and_compile demo_env demo_onnx_model "torch" "cpu" 2%positive
      (<[2%positive :=
           <[ONNX_INITIALIZERS := VInitializers (collect_initializers demo_onnx_model)]>
             {[N_FEATURES := VInt 6]}]>
         (demo_heap_with {[N_FEATURES := VInt 6]})).
Proof.
  apply (onnx_feature_count_kept demo_env _ _ _ _ _ _ _ (VInt 6));
    vm_compute; reflexivity.
Defined.

Lemma onnx_input_without_columns_witness :
  _convert_onnxml demo_env demo_onnx_model "torch" (VArray demo_vector) "cpu"
    2%positive demo_heap
  = (Raise (IndexError "tuple index out of range"), demo_heap).
Proof.
  apply (onnx_input_without_columns demo_env _ _ _ _ _ _ ∅);
    vm_compute; reflexivity.
Defined.

Lemma initializers_by_name_witness :
  collect_initializers demo_onnx_model !! "intercepts"
  = Some (TensorProto "intercepts" [1]%nat [5]%Z).
Proof.
  refine (proj2 (proj2 (initializers_by_name demo_onnx_model) demo_initializers
                   eq_refl) _ (TensorProto "intercepts" [1]%nat [5]%Z) _).
  - cbn. compute_done.
  - set_solver.
Defined.

Lemma canonicalization_idempotent_witness :
  fix_test_input demo_env VNone 2%positive
    (fix_test_input demo_env VNone 2%positive
       (demo_heap_with {[TEST_INPUT := VPandas demo_frame]})).2
  = (Ok (VTuple (map VArray demo_frame_arrays)),
     (fix_test_input demo_env VNone 2%positive
        (demo_heap_with {[TEST_INPUT := VPandas demo_frame]})).2).
Proof.
  apply (canonicalization_idempotent demo_env VNone VNone 2%positive
           (demo_heap_with {[TEST_INPUT := VPandas demo_frame]}) _
           {[TEST_INPUT := VPandas demo_frame]} (VPandas demo_frame)).
  - vm_compute. reflexivity.
  - vm_compute. reflexivity.
  - discriminate.
  - vm_compute. reflexivity.
Defined.

Lemma spark_unrecognized_type_witness :
  fix_test_input demo_env VNone 2%positive
    (demo_heap_with {[TEST_INPUT := VSpark demo_spark_text]})
  = (Raise (ValueError msg_spark_dtype),
     <[2%positive := <[N_FEATURES := VInt 2]> (<[N_INPUTS := VInt 2]>
                       {[TEST_INPUT := VSpark demo_spark_text]})]>
       (demo_heap_with {[TEST_INPUT := VSpark demo_spark_text]})).
Proof.
  refine (proj1 (spark_unrecognized_type demo_env VNone 2%positive _ _
                   demo_spark_text
                   (<["name" := SScalar 0%Z]> {["age" := SScalar 30%Z]})
                   [SparkField "age" IntegerType] []
                   (SparkField "name" (OtherSparkType "StringType"))
                   [(int32, 1%nat)] (SScalar 0%Z) "StringType" _ _ _ _ _ _ _ _)).
  all: vm_compute; reflexivity.
Defined.




(** ** Sample inputs passed to [convert] (C6, C7, C10) *)

Section Supplied.
Context {scalar topology hb_model : Type}.
Context (env : Env scalar topology hb_model).

#[local] Abbreviation pyvalue := (pyvalue scalar).
#[local] Abbreviation pymodel := (pymodel scalar).
#[local] Abbreviation heap := (heap scalar).
#[local] Abbreviation dict := (dict scalar).




(** *** The first row of a Spark frame *)





End Supplied.

(** ** Sample inputs passed to [convert], on the concrete environment *)





